(** * Profile-info synchronisation (src/client/component/profile_infos.cpp)

    A shallow embedding of the [profile_infos] component: the local profile
    store, the guarded registry [profile_mapping], the distribution protocol,
    the membership sweep and the debounced cache update, together with the
    properties of the component's specification. *)

From Stdlib Require Import ZArith NArith Lia List.
From Stdlib.Strings Require Import Byte.
From stdpp Require Import base option list gmap strings.

Local Open Scope Z_scope.

(** ** Bytes and native (little-endian, x64) integer encoding *)

Module Bytes.

Definition byte_of_Z (z : Z) : byte :=
  default x00 (Byte.of_N (Z.to_N (z mod 256))).

Definition Z_of_byte (b : byte) : Z := Z.of_N (Byte.to_N b).

(** The object representation of an [n]-byte integer, as [memcpy] and
    [append(reinterpret_cast<const char*>(&x), sizeof(x))] see it. *)
Fixpoint le_bytes (n : nat) (z : Z) : list byte :=
  match n with
  | O => []
  | S n' => byte_of_Z z :: le_bytes n' (z / 256)
  end.

Fixpoint le_value (bs : list byte) : Z :=
  match bs with
  | [] => 0
  | b :: bs' => Z_of_byte b + 256 * le_value bs'
  end.

(** Reading four bytes back as an [int32_t] (two's complement). *)
Definition int32_of_bytes (bs : list byte) : Z :=
  let u := le_value bs in
  if u <? 2 ^ 31 then u else u - 2 ^ 32.

Definition int32_range (z : Z) : Prop := - 2 ^ 31 <= z < 2 ^ 31.
Definition uint64_range (z : Z) : Prop := 0 <= z < 2 ^ 64.

End Bytes.

(** ** utils::byte_buffer *)

Module ByteBuffer.
Import Bytes.

(** Modelled from the spec: [utils::byte_buffer] (utils/byte_buffer.hpp) is
    an external collaborator, the "byte-level message framing primitives
    (read/write of integers and length-prefixed strings)".  A buffer is the
    sequence of bytes written so far, respectively still to be read;
    integers are written fixed-width in native encoding, a string as its
    length followed by its bytes.  The width of the length prefix is not
    fixed by the specification and is the parameter [len_size]; a read
    beyond the end of the buffer fails the decode ([None]). *)
Definition byte_buffer : Type := list byte.

Definition write (n : nat) (v : Z) (buffer : byte_buffer) : byte_buffer :=
  buffer ++ le_bytes n v.

Definition write_string (len_size : nat) (str : list byte) (buffer : byte_buffer)
  : byte_buffer :=
  write len_size (Z.of_nat (length str)) buffer ++ str.

Definition read_raw (n : nat) (buffer : byte_buffer) : option (list byte * byte_buffer) :=
  if decide (n <= length buffer)%nat then Some (take n buffer, drop n buffer) else None.

Definition read_uint (n : nat) (buffer : byte_buffer) : option (Z * byte_buffer) :=
  '(bs, rest) ← read_raw n buffer; Some (le_value bs, rest).

Definition read_int32 (buffer : byte_buffer) : option (Z * byte_buffer) :=
  '(bs, rest) ← read_raw 4 buffer; Some (int32_of_bytes bs, rest).

Definition read_string (len_size : nat) (buffer : byte_buffer)
  : option (list byte * byte_buffer) :=
  '(n, rest) ← read_uint len_size buffer; read_raw (Z.to_nat n) rest.

End ByteBuffer.

(** ** profile_info *)

Record profile_info : Type := { version : Z; ddl : list byte }.

Module ProfileInfo.
Import Bytes ByteBuffer.

(** [profile_info::profile_info(utils::byte_buffer& buffer)] *)
Definition read (len_size : nat) (buffer : byte_buffer)
  : option (profile_info * byte_buffer) :=
  '(v, buffer) ← read_int32 buffer;
  '(d, buffer) ← read_string len_size buffer;
  Some ({| version := v; ddl := d |}, buffer).

(** [profile_info::serialize(utils::byte_buffer& buffer) const] *)
Definition serialize (len_size : nat) (info : profile_info) (buffer : byte_buffer)
  : byte_buffer :=
  write_string len_size (ddl info) (write 4 (version info) buffer).

(** The value fits the C++ type: [version] is an [int32_t] and the length of
    [ddl] is representable in the length prefix of the framing layer. *)
Definition representable (len_size : nat) (info : profile_info) : Prop :=
  int32_range (version info) /\
  Z.of_nat (length (ddl info)) < 2 ^ (8 * Z.of_nat len_size).

End ProfileInfo.

(** ** The component and its collaborators *)

Section ProfileInfos.
Import Bytes ByteBuffer.

(** [game::netadr_t] is declared by the engine headers; the component only
    passes addresses on and compares nothing but their identity. *)
Context {netadr_t : Type} `{!EqDecision netadr_t}.

(** Width in bytes of the length prefix of [byte_buffer::write_string]. *)
Variable string_length_size : nat.

(** The two fields of [game::client_s] the component reads. *)
Record client_s : Type := { address : netadr_t; xuid : Z }.

(** What the component observes of its collaborators at the time of a call:
    the Steam identity, the role and session queries, the connected clients
    in the order [game::foreach_connected_client] visits them, and
    [party::is_host]. *)
Record env : Type := {
  steam_id : Z;                      (* steam::SteamUser()->GetSteamID().bits *)
  is_server : bool;                  (* game::is_server() *)
  is_server_running : bool;          (* game::is_server_running() *)
  is_client : bool;                  (* game::is_client() *)
  connected_clients : list client_s;
  party_is_host : netadr_t -> bool;  (* party::is_host(address) *)
}.

(** Callbacks handed to the scheduler. *)
Inductive task : Type :=
| pcache_update_task        (* the lambda of [schedule_pcache_update] *)
| clean_task.               (* [clean_cached_profile_infos] *)

#[local] Instance task_eq_dec : EqDecision task.
Proof. solve_decision. Defined.

(** Modelled from the spec: the scheduler (scheduler.hpp) is an external
    collaborator offering [run_periodic(fn, interval)] and
    [run_once_delayed(fn, delay)].  An entry holds the callback, the time
    (in milliseconds) from which it is due and, for a periodic entry, its
    interval. *)
Record scheduled : Type := { body : task; due : N; repeat_every : option N }.

(** Effects that leave the component. *)
Inductive event : Type :=
| EvSend (to : netadr_t) (tag : string) (data : list byte)  (* network::send *)
| EvAcquire                  (* entering [profile_mapping.access] *)
| EvRelease                  (* leaving [profile_mapping.access] *)
| EvPCacheDelete             (* game::PCache_DeleteEntries(CONTROLLER_INDEX_FIRST) *)
| EvPrintf (user_id : Z).    (* printf("Requesting profile info: %llX\n", ...) *)

Record state : Type := {
  profile_mapping : gmap Z profile_info;  (* the guarded [profile_map] *)
  update_triggered : bool;                (* static std::atomic_bool *)
  profile_file : option (list byte);      (* players/user/profile_info *)
  now : N;                                (* scheduler clock, milliseconds *)
  tasks : list scheduled;                 (* scheduler entries *)
}.

Definition set_profile_mapping (m : gmap Z profile_info) (s : state) : state :=
  {| profile_mapping := m; update_triggered := update_triggered s;
     profile_file := profile_file s; now := now s; tasks := tasks s |}.

Definition set_update_triggered (b : bool) (s : state) : state :=
  {| profile_mapping := profile_mapping s; update_triggered := b;
     profile_file := profile_file s; now := now s; tasks := tasks s |}.

Definition set_profile_file (f : option (list byte)) (s : state) : state :=
  {| profile_mapping := profile_mapping s; update_triggered := update_triggered s;
     profile_file := f; now := now s; tasks := tasks s |}.

Definition set_now (t : N) (s : state) : state :=
  {| profile_mapping := profile_mapping s; update_triggered := update_triggered s;
     profile_file := profile_file s; now := t; tasks := tasks s |}.

Definition set_tasks (ts : list scheduled) (s : state) : state :=
  {| profile_mapping := profile_mapping s; update_triggered := update_triggered s;
     profile_file := profile_file s; now := now s; tasks := ts |}.

(** *** State and trace monad *)

Definition M (A : Type) : Type := state -> A * state * list event.

#[local] Instance M_ret : MRet M := fun A (a : A) s => (a, s, []).

#[local] Instance M_bind : MBind M := fun A B (f : A -> M B) (m : M A) s =>
  let '(a, s1, t1) := m s in
  let '(b, s2, t2) := f a s1 in
  (b, s2, t1 ++ t2).

Definition gets {A} (f : state -> A) : M A := fun s => (f s, s, []).
Definition modify (f : state -> state) : M unit := fun s => (tt, f s, []).
Definition emit (e : event) : M unit := fun s => (tt, s, [e]).

Definition result_of {A} (r : A * state * list event) : A := r.1.1.
Definition state_of {A} (r : A * state * list event) : state := r.1.2.
Definition trace_of {A} (r : A * state * list event) : list event := r.2.

Fixpoint for_each {A} (l : list A) (f : A -> M unit) : M unit :=
  match l with
  | [] => mret tt
  | x :: l' => f x;; for_each l' f
  end.

(** Modelled from the spec: [utils::concurrency::container::access]
    (utils/concurrency.hpp) runs the accessor on the guarded object under
    mutual exclusion; the mutex is held from [EvAcquire] to [EvRelease]. *)
Definition access {A} (accessor : gmap Z profile_info -> M (A * gmap Z profile_info))
  : M A :=
  emit EvAcquire;;
  profiles ← gets profile_mapping;
  '(r, profiles') ← accessor profiles;
  modify (set_profile_mapping profiles');;
  emit EvRelease;;
  mret r.

(** The same with an accessor taking [const profile_map&]. *)
Definition access_const {A} (accessor : gmap Z profile_info -> M A) : M A :=
  emit EvAcquire;;
  profiles ← gets profile_mapping;
  r ← accessor profiles;
  emit EvRelease;;
  mret r.

(** [scheduler::once(callback, scheduler::main, delay)] *)
Definition scheduler_once (callback : task) (delay : N) : M unit :=
  modify (fun s => set_tasks
    (tasks s ++ [{| body := callback; due := (now s + delay)%N; repeat_every := None |}]) s).

(** [scheduler::loop(callback, scheduler::main, interval)] *)
Definition scheduler_loop (callback : task) (interval : N) : M unit :=
  modify (fun s => set_tasks
    (tasks s ++ [{| body := callback; due := (now s + interval)%N;
                    repeat_every := Some interval |}]) s).

(** [game::foreach_connected_client(callback)] *)
Definition foreach_connected_client (e : env) (callback : client_s -> M unit) : M unit :=
  for_each (connected_clients e) callback.

(** *** The component (namespace [profile_infos]) *)

Definition sizeof_version : nat := 4.   (* sizeof(info.version), an int32_t *)
Definition sizeof_size_t : nat := 8.    (* sizeof(size_t) on the x64 target *)

Definition load_profile_info : M (option profile_info) :=
  file ← gets profile_file;             (* utils::io::read_file(..., &data) *)
  match file with
  | None => mret None
  | Some data =>
      let version_size := sizeof_version in
      (* [version_size] is a [size_t], so [sizeof(version_size)] is the
         size of [size_t] *)
      if decide (length data < sizeof_size_t)%nat then mret None
      else mret (Some {| version := int32_of_bytes (take version_size data);
                         ddl := drop version_size data |})
  end.

Definition send_profile_info (address : netadr_t) (buffer : list byte) : M unit :=
  emit (EvSend address "profileInfo" buffer).

(** [buffer.write(user_id); info.serialize(buffer);] on a fresh buffer. *)
Definition encode_profile_info (user_id : Z) (info : profile_info) : byte_buffer :=
  ProfileInfo.serialize string_length_size info (write 8 user_id []).

Definition distribute_profile_info (e : env) (user_id : Z) (info : profile_info)
  : M unit :=
  if decide (user_id = steam_id e) then mret tt
  else
    let data := encode_profile_info user_id info in
    foreach_connected_client e (fun client => send_profile_info (address client) data).

Definition pcache_update_delay : N := 5000.   (* 5s *)

Definition schedule_pcache_update (e : env) : M unit :=
  (* game::is_server() || update_triggered.exchange(true) *)
  skip ← (if is_server e then mret true
          else old ← gets update_triggered;
               modify (set_update_triggered true);;
               mret old);
  if skip : bool then mret tt
  else scheduler_once pcache_update_task pcache_update_delay.

(** The body of the lambda scheduled by [schedule_pcache_update]. *)
Definition pcache_update : M unit :=
  emit EvPCacheDelete;;
  modify (set_update_triggered false).

Definition get_connected_client_xuids (e : env) : gset Z :=
  foldl (fun connected client => connected ∪ {[ xuid client ]}) ∅ (connected_clients e).

(** The erasing loop of [clean_cached_profile_infos]: every entry of the map
    is visited once; entries whose key is not in [xuids] are erased. *)
Definition erase_disconnected (xuids : gset Z) (profiles : gmap Z profile_info)
  : gmap Z profile_info :=
  foldl (fun m entry => if decide (entry.1 ∈ xuids) then m else delete entry.1 m)
        profiles (map_to_list profiles).

Definition clean_cached_profile_infos (e : env) : M unit :=
  if negb (is_server_running e) then mret tt
  else
    let xuids := get_connected_client_xuids e in
    access (fun profiles => mret (tt, erase_disconnected xuids profiles)).

Definition add_profile_info (e : env) (user_id : Z) (info : profile_info) : M unit :=
  if decide (user_id = steam_id e) then mret tt
  else
    access (fun profiles => mret (tt, <[user_id := info]> profiles));;
    schedule_pcache_update e.

Definition distribute_profile_info_to_user
    (addr : netadr_t) (user_id : Z) (info : profile_info) : M unit :=
  send_profile_info addr (encode_profile_info user_id info).

(** [get_profile_info()] *)
Definition get_local_profile_info : M (option profile_info) := load_profile_info.

Definition distribute_profile_infos_to_user (e : env) (addr : netadr_t) : M unit :=
  access_const (fun profiles =>
    for_each (map_to_list profiles)
      (fun entry => distribute_profile_info_to_user addr entry.1 entry.2));;
  if negb (is_server e) then
    info ← get_local_profile_info;
    match info with
    | Some info => distribute_profile_info_to_user addr (steam_id e) info
    | None => mret tt
    end
  else mret tt.

Definition add_and_distribute_profile_info
    (e : env) (addr : netadr_t) (user_id : Z) (info : profile_info) : M unit :=
  distribute_profile_infos_to_user e addr;;
  add_profile_info e user_id info;;
  distribute_profile_info e user_id info.

Definition clear_profile_infos : M unit :=
  access (fun _ => mret (tt, ∅)).

(** [get_profile_info(const uint64_t user_id)] *)
Definition get_profile_info (e : env) (user_id : Z) : M (option profile_info) :=
  emit (EvPrintf user_id);;
  if decide (user_id = steam_id e) then get_local_profile_info
  else access_const (fun profiles => mret (profiles !! user_id)).

Definition update_profile_info (info : profile_info) : M unit :=
  let data := le_bytes sizeof_version (version info) ++ ddl info in
  modify (set_profile_file (Some data)).    (* utils::io::write_file *)

(** The handler [component::post_unpack] registers for "profileInfo".
    [None] is a failed decode: the exception of an out-of-bounds read
    leaves the handler before the registry is touched. *)
Definition profile_info_handler (e : env) (server : netadr_t) (data : list byte)
  : M (option unit) :=
  if negb (party_is_host e server) then mret (Some tt)
  else
    match read_uint 8 data with
    | None => mret None
    | Some (user_id, buffer) =>
        match ProfileInfo.read string_length_size buffer with
        | None => mret None
        | Some (info, _) => add_profile_info e user_id info;; mret (Some tt)
        end
    end.

Definition clean_interval : N := 5000.   (* 5s *)

(** [component::post_unpack]: returns the handlers passed to [network::on],
    each with its tag. *)
Definition post_unpack (e : env)
  : M (list (string * (env -> netadr_t -> list byte -> M (option unit)))) :=
  scheduler_loop clean_task clean_interval;;
  if is_client e then mret [("profileInfo"%string, profile_info_handler)]
  else mret [].

(** *** Scheduler frames *)

Definition run_task (e : env) (t : task) : M unit :=
  match t with
  | pcache_update_task => pcache_update
  | clean_task => clean_cached_profile_infos e
  end.

Definition is_due (t : N) (x : scheduled) : bool := bool_decide (due x <= t)%N.

Definition reschedule (t : N) (x : scheduled) : option scheduled :=
  if is_due t x then
    interval ← repeat_every x;
    Some {| body := body x; due := (t + interval)%N; repeat_every := Some interval |}
  else Some x.

(** Modelled from the spec: one pass of the scheduler, [d] milliseconds
    after the previous one.  Every entry that is due runs once; a one-shot
    entry is dropped, a periodic one is due again after its interval. *)
Definition scheduler_frame (e : env) (d : N) : M unit :=
  modify (fun s => set_now (now s + d)%N s);;
  t ← gets now;
  entries ← gets tasks;
  modify (set_tasks (omap (reschedule t) entries));;
  for_each (filter (fun x => is_due t x = true) entries) (fun x => run_task e (body x)).


(** *** Observations on traces and executions *)

(** The buffers [addr] is sent, in order. *)
Fixpoint received_by (addr : netadr_t) (tr : list event) : list (list byte) :=
  match tr with
  | [] => []
  | EvSend to _ data :: tr' =>
      if decide (to = addr) then data :: received_by addr tr' else received_by addr tr'
  | _ :: tr' => received_by addr tr'
  end.

Definition is_send (ev : event) : bool :=
  match ev with EvSend _ _ _ => true | _ => false end.

(** The number of [network::send] calls of a trace. *)
Definition send_count (tr : list event) : nat := length (filter (fun ev => is_send ev = true) tr).

(** Whether the registry mutex is held after [tr], given whether it was
    held before. *)
Fixpoint held_after (held : bool) (tr : list event) : bool :=
  match tr with
  | [] => held
  | EvAcquire :: tr' => held_after true tr'
  | EvRelease :: tr' => held_after false tr'
  | _ :: tr' => held_after held tr'
  end.

(** The sends of [tr] performed while the registry mutex is held. *)
Fixpoint sends_in_access (held : bool) (tr : list event) : list event :=
  match tr with
  | [] => []
  | EvAcquire :: tr' => sends_in_access true tr'
  | EvRelease :: tr' => sends_in_access false tr'
  | EvSend to tag data :: tr' =>
      if held then EvSend to tag data :: sends_in_access held tr'
      else sends_in_access held tr'
  | _ :: tr' => sends_in_access held tr'
  end.

Definition is_pcache_delete (ev : event) : bool :=
  match ev with EvPCacheDelete => true | _ => false end.

(** How often the maintenance action fired in a trace. *)
Definition firings (tr : list event) : nat :=
  length (filter (fun ev => is_pcache_delete ev = true) tr).

(** Whether [tr] uses the registry mutex properly, given whether it is held
    at the start: it is never acquired while held and never released while
    free. *)
Fixpoint lock_discipline (held : bool) (tr : list event) : bool :=
  match tr with
  | [] => true
  | EvAcquire :: tr' => negb held && lock_discipline true tr'
  | EvRelease :: tr' => held && lock_discipline false tr'
  | _ :: tr' => lock_discipline held tr'
  end.

(** A burst of ingests, as the handler or local callers produce it. *)
Definition add_profile_infos (e : env) (entries : list (Z * profile_info)) : M unit :=
  for_each entries (fun entry => add_profile_info e entry.1 entry.2).

(** The message a full sync sends for one registry entry. *)
Definition sync_message (entry : Z * profile_info) : list byte :=
  encode_profile_info entry.1 entry.2.

(** What [distribute_profile_infos_to_user] sends after the registry entries:
    outside the server role, the stored local profile under the local
    identity, when it loads. *)
Definition own_info_messages (e : env) (s : state) : list (list byte) :=
  if is_server e then []
  else match result_of (load_profile_info s) with
       | Some info => [encode_profile_info (steam_id e) info]
       | None => []
       end.

(** The pending firings of the debounced trigger among scheduler entries. *)
Definition pcache_entries (entries : list scheduled) : list scheduled :=
  filter (fun x => body x = pcache_update_task) entries.

(** No firing is pending and the flag is clear. *)
Definition idle (s : state) : Prop :=
  update_triggered s = false /\ pcache_entries (tasks s) = [].

(** A firing is pending, due from time [t]. *)
Definition armed (t : N) (s : state) : Prop :=
  update_triggered s = true /\
  pcache_entries (tasks s) =
    [{| body := pcache_update_task; due := t; repeat_every := None |}].

(** A run of the trigger: arming it, and scheduler passes [d] milliseconds
    apart. *)
Inductive action : Type :=
| Arm
| Frame (d : N).

Definition run_action (e : env) (a : action) : M unit :=
  match a with
  | Arm => schedule_pcache_update e
  | Frame d => scheduler_frame e d
  end.

Definition run_actions (e : env) (acts : list action) : M unit :=
  for_each acts (run_action e).

Fixpoint elapsed (acts : list action) : N :=
  match acts with
  | [] => 0
  | Arm :: acts' => elapsed acts'
  | Frame d :: acts' => d + elapsed acts'
  end.

(** Everything that can happen to the component: a call of one of its entry
    points, a message delivered to its handler, or a scheduler pass. *)
Inductive operation : Type :=
| OpAddProfileInfo (user_id : Z) (info : profile_info)
| OpDistributeProfileInfoToUser (addr : netadr_t) (user_id : Z) (info : profile_info)
| OpDistributeProfileInfosToUser (addr : netadr_t)
| OpAddAndDistributeProfileInfo (addr : netadr_t) (user_id : Z) (info : profile_info)
| OpClearProfileInfos
| OpGetLocalProfileInfo
| OpGetProfileInfo (user_id : Z)
| OpUpdateProfileInfo (info : profile_info)
| OpPostUnpack
| OpReceive (server : netadr_t) (data : list byte)
| OpSchedulerFrame (d : N).

Definition run_operation (e : env) (o : operation) : M unit :=
  match o with
  | OpAddProfileInfo user_id info => add_profile_info e user_id info
  | OpDistributeProfileInfoToUser addr user_id info =>
      distribute_profile_info_to_user addr user_id info
  | OpDistributeProfileInfosToUser addr => distribute_profile_infos_to_user e addr
  | OpAddAndDistributeProfileInfo addr user_id info =>
      add_and_distribute_profile_info e addr user_id info
  | OpClearProfileInfos => clear_profile_infos
  | OpGetLocalProfileInfo => get_local_profile_info;; mret tt
  | OpGetProfileInfo user_id => get_profile_info e user_id;; mret tt
  | OpUpdateProfileInfo info => update_profile_info info
  | OpPostUnpack => post_unpack e;; mret tt
  | OpReceive server data => profile_info_handler e server data;; mret tt
  | OpSchedulerFrame d => scheduler_frame e d
  end.

(** One step of the process whose Steam identity is [local]; the rest of the
    environment may differ from step to step. *)
Inductive step (local : Z) : state -> state -> Prop :=
| step_operation (e : env) (o : operation) (s : state) :
    steam_id e = local ->
    step local s (state_of (run_operation e o s)).

(** ** Facts about the encodings *)

Lemma Z_of_byte_range b : 0 <= Z_of_byte b < 256.
Proof.
  unfold Z_of_byte. pose proof (Byte.to_N_bounded b). lia.
Qed.

Lemma Z_of_byte_of_Z z : Z_of_byte (byte_of_Z z) = z mod 256.
Proof.
  unfold Z_of_byte, byte_of_Z.
  assert (Hr : 0 <= z mod 256 < 256) by (apply Z.mod_pos_bound; lia).
  destruct (Byte.of_N (Z.to_N (z mod 256))) as [b|] eqn:E; simpl.
  - apply Byte.to_of_N in E. rewrite E. lia.
  - apply Byte.of_N_None_iff in E. lia.
Qed.

Lemma byte_of_Z_of_byte b : byte_of_Z (Z_of_byte b) = b.
Proof.
  unfold byte_of_Z. pose proof (Z_of_byte_range b) as Hr.
  rewrite Z.mod_small by lia. unfold Z_of_byte.
  rewrite N2Z.id, Byte.of_to_N. reflexivity.
Qed.

Lemma length_le_bytes n z : length (le_bytes n z) = n.
Proof. revert z. induction n as [|n IH]; intros z; simpl; [|rewrite IH]; reflexivity. Qed.

Lemma le_value_range bs : 0 <= le_value bs < 2 ^ (8 * Z.of_nat (length bs)).
Proof.
  induction bs as [|b bs IH]; simpl le_value; simpl length.
  - simpl. lia.
  - pose proof (Z_of_byte_range b).
    replace (8 * Z.of_nat (S (length bs))) with (8 + 8 * Z.of_nat (length bs)) by lia.
    rewrite Z.pow_add_r by lia. change (2 ^ 8) with 256. nia.
Qed.

Lemma le_value_le_bytes n z : le_value (le_bytes n z) = z mod 2 ^ (8 * Z.of_nat n).
Proof.
  revert z. induction n as [|n IH]; intros z.
  - simpl. rewrite Z.mod_1_r. reflexivity.
  - cbn [le_bytes le_value]. rewrite Z_of_byte_of_Z, IH.
    replace (8 * Z.of_nat (S n)) with (8 + 8 * Z.of_nat n) by lia.
    rewrite Z.pow_add_r by lia. change (2 ^ 8) with 256.
    rewrite Z.rem_mul_r by lia. reflexivity.
Qed.

Lemma int32_of_le_bytes v : int32_range v -> int32_of_bytes (le_bytes 4 v) = v.
Proof.
  unfold int32_range, int32_of_bytes. intros Hv.
  rewrite le_value_le_bytes. change (2 ^ (8 * Z.of_nat 4)) with (2 ^ 32).
  destruct (Z.ltb_spec (v mod 2 ^ 32) (2 ^ 31)) as [Hlt|Hge].
  - destruct (Z.neg_nonneg_cases v) as [Hn|Hp].
    + replace v with ((v + 2 ^ 32) + (-1) * 2 ^ 32) in Hlt by lia.
      rewrite Z.mod_add in Hlt by lia. rewrite Z.mod_small in Hlt by lia. lia.
    + apply Z.mod_small. lia.
  - destruct (Z.neg_nonneg_cases v) as [Hn|Hp].
    + replace v with ((v + 2 ^ 32) + (-1) * 2 ^ 32) at 1 by lia.
      rewrite Z.mod_add by lia. rewrite Z.mod_small by lia. lia.
    + rewrite Z.mod_small in Hge by lia. lia.
Qed.

Lemma int32_of_bytes_range bs : length bs = 4%nat -> int32_range (int32_of_bytes bs).
Proof.
  intros Hl. unfold int32_range, int32_of_bytes.
  pose proof (le_value_range bs) as Hr. rewrite Hl in Hr.
  change (2 ^ (8 * Z.of_nat 4)) with (2 ^ 32) in Hr.
  destruct (Z.ltb_spec (le_value bs) (2 ^ 31)); lia.
Qed.

Lemma read_raw_app bs rest : read_raw (length bs) (bs ++ rest) = Some (bs, rest).
Proof.
  unfold read_raw. rewrite length_app.
  destruct (decide _) as [_|Hn]; [|lia].
  rewrite take_app_length, drop_app_length. reflexivity.
Qed.

Lemma read_uint_write n v rest :
  read_uint n (le_bytes n v ++ rest) = Some (v mod 2 ^ (8 * Z.of_nat n), rest).
Proof.
  unfold read_uint.
  rewrite <- (length_le_bytes n v) at 1. rewrite read_raw_app.
  cbn [mbind option_bind]. rewrite le_value_le_bytes. reflexivity.
Qed.

Lemma read_int32_write v rest :
  int32_range v -> read_int32 (le_bytes 4 v ++ rest) = Some (v, rest).
Proof.
  intros Hv. unfold read_int32.
  rewrite <- (length_le_bytes 4 v) at 1. rewrite read_raw_app.
  cbn [mbind option_bind]. rewrite int32_of_le_bytes by assumption. reflexivity.
Qed.

Lemma read_string_write len_size str rest :
  Z.of_nat (length str) < 2 ^ (8 * Z.of_nat len_size) ->
  read_string len_size (le_bytes len_size (Z.of_nat (length str)) ++ str ++ rest)
  = Some (str, rest).
Proof.
  intros Hl. unfold read_string. rewrite read_uint_write.
  cbn [mbind option_bind]. rewrite Z.mod_small by lia. rewrite Nat2Z.id. apply read_raw_app.
Qed.

Lemma profile_info_read_serialize len_size info rest :
  ProfileInfo.representable len_size info ->
  ProfileInfo.read len_size (ProfileInfo.serialize len_size info [] ++ rest) = Some (info, rest).
Proof.
  intros [Hv Hl]. unfold ProfileInfo.read, ProfileInfo.serialize, write_string, write.
  rewrite app_nil_l, <- !app_assoc. rewrite read_int32_write by assumption.
  cbn [mbind option_bind]. rewrite read_string_write by assumption.
  cbn [mbind option_bind]. destruct info; reflexivity.
Qed.

(** ** Facts about the monad *)

Lemma bind_run {A B} (m : M A) (f : A -> M B) (s : state) :
  (m ≫= f) s =
  (result_of (f (result_of (m s)) (state_of (m s))),
   state_of (f (result_of (m s)) (state_of (m s))),
   trace_of (m s) ++ trace_of (f (result_of (m s)) (state_of (m s)))).
Proof.
  unfold mbind, M_bind, result_of, state_of, trace_of.
  destruct (m s) as [[a s1] t1]. simpl.
  destruct (f a s1) as [[b s2] t2]. reflexivity.
Qed.

Lemma result_of_bind {A B} (m : M A) (f : A -> M B) s :
  result_of ((m ≫= f) s) = result_of (f (result_of (m s)) (state_of (m s))).
Proof. rewrite bind_run. reflexivity. Qed.

Lemma state_of_bind {A B} (m : M A) (f : A -> M B) s :
  state_of ((m ≫= f) s) = state_of (f (result_of (m s)) (state_of (m s))).
Proof. rewrite bind_run. reflexivity. Qed.

Lemma trace_of_bind {A B} (m : M A) (f : A -> M B) s :
  trace_of ((m ≫= f) s) =
  trace_of (m s) ++ trace_of (f (result_of (m s)) (state_of (m s))).
Proof. rewrite bind_run. reflexivity. Qed.

Lemma for_each_state {A} (f : A -> M unit) (l : list A) (s : state) :
  (forall x s', state_of (f x s') = s') -> state_of (for_each l f s) = s.
Proof.
  intros Hf. revert s. induction l as [|x l IH]; intros s; [reflexivity|].
  cbn [for_each]. rewrite state_of_bind, Hf. apply IH.
Qed.

Lemma for_each_trace {A} (f : A -> M unit) (g : A -> event) (l : list A) (s : state) :
  (forall x s', f x s' = (tt, s', [g x])) ->
  trace_of (for_each l f s) = map g l.
Proof.
  intros Hf. revert s. induction l as [|x l IH]; intros s; [reflexivity|].
  cbn [for_each map]. rewrite trace_of_bind, !Hf. cbn. f_equal. apply IH.
Qed.

Lemma for_each_sends (addr : netadr_t) (l : list (Z * profile_info)) (s : state) :
  for_each l (fun entry => distribute_profile_info_to_user addr entry.1 entry.2) s
  = (tt, s, map (fun entry => EvSend addr "profileInfo" (sync_message entry)) l).
Proof.
  revert s. induction l as [|x l IH]; intros s; [reflexivity|].
  cbn [for_each map]. rewrite bind_run. cbn. rewrite IH. reflexivity.
Qed.

(** ** Local profile store *)

Lemma load_profile_info_pure (s : state) :
  state_of (load_profile_info s) = s /\ trace_of (load_profile_info s) = [].
Proof.
  unfold load_profile_info. rewrite bind_run. cbn.
  destruct (profile_file s) as [data|]; [|split; reflexivity].
  destruct (decide _); split; reflexivity.
Qed.

Lemma load_profile_info_absent_iff (s : state) :
  result_of (load_profile_info s) = None <->
  profile_file s = None \/
  exists data, profile_file s = Some data /\ (length data < sizeof_size_t)%nat.
Proof.
  unfold load_profile_info. rewrite bind_run. cbn.
  destruct (profile_file s) as [data|]; [|intuition].
  destruct (decide _) as [Hlt|Hge]; cbn; split.
  - intros _. right. exists data. auto.
  - reflexivity.
  - discriminate.
  - intros [?|(data' & Heq & Hlt)]; [discriminate|].
    injection Heq as <-. contradiction.
Qed.

Lemma load_profile_info_present (s : state) (data : list byte) :
  profile_file s = Some data ->
  (sizeof_size_t <= length data)%nat ->
  result_of (load_profile_info s)
  = Some {| version := int32_of_bytes (take 4 data); ddl := drop 4 data |} /\
  length (drop 4 data) = (length data - 4)%nat.
Proof.
  intros Hf Hl. unfold load_profile_info. rewrite bind_run. cbn. rewrite Hf.
  destruct (decide _) as [Hlt|_]; [lia|]. split; [reflexivity|apply length_drop].
Qed.

(** C1: at a stored blob of exactly four bytes, a version and an empty
    payload as [update_profile_info] itself writes it, [load_profile_info]
    returns absent although the blob is as long as the version field: the
    guard compares the length with [sizeof(version_size)], the size of a
    [size_t], and not with [version_size]. *)
Theorem load_profile_info_four_byte_blob (s : state) :
  let saved := state_of (update_profile_info {| version := 7; ddl := [] |} s) in
  profile_file saved = Some [x07; x00; x00; x00] /\
  result_of (load_profile_info saved) = None /\
  result_of (load_profile_info (set_profile_file (Some [x07; x00; x00; x00]) s)) = None.
Proof. cbv zeta. split; [reflexivity|]. split; reflexivity. Qed.

(** ** Distribution protocol *)

Lemma distribute_profile_info_run (e : env) (user_id : Z) (info : profile_info) (s : state) :
  distribute_profile_info e user_id info s =
  (tt, s,
   if decide (user_id = steam_id e) then []
   else map (fun client =>
               EvSend (address client) "profileInfo" (encode_profile_info user_id info))
            (connected_clients e)).
Proof.
  unfold distribute_profile_info, foreach_connected_client.
  destruct (decide _) as [_|_]; [reflexivity|].
  generalize (connected_clients e). intros l. revert s.
  induction l as [|c l IH]; intros s; [reflexivity|].
  cbn [for_each map]. rewrite bind_run. cbn. rewrite IH. reflexivity.
Qed.

(** C2 (amended): [distribute_profile_info] sends nothing when [user_id] is
    the local identity; otherwise it sends the one encoded buffer to the
    address of every connected client, in visiting order, whatever the
    client's own identity is, and changes no state. *)
Theorem distribute_profile_info_sends
    (e : env) (user_id : Z) (info : profile_info) (s : state) :
  state_of (distribute_profile_info e user_id info s) = s /\
  trace_of (distribute_profile_info e user_id info s) =
    (if decide (user_id = steam_id e) then []
     else map (fun client =>
                 EvSend (address client) "profileInfo" (encode_profile_info user_id info))
              (connected_clients e)) /\
  send_count (trace_of (distribute_profile_info e user_id info s)) =
    (if decide (user_id = steam_id e) then 0%nat else length (connected_clients e)).
Proof.
  rewrite distribute_profile_info_run. cbn. split; [reflexivity|]. split; [reflexivity|].
  destruct (decide _); [reflexivity|].
  unfold send_count. generalize (connected_clients e). intros l.
  induction l as [|c l IH]; [reflexivity|].
  cbn [map]. rewrite filter_cons_True by reflexivity. cbn [length]. rewrite IH. reflexivity.
Qed.

(** ** Registry operations *)

Lemma schedule_pcache_update_run (e : env) (s : state) :
  schedule_pcache_update e s =
  (tt,
   if is_server e then s
   else if update_triggered s then set_update_triggered true s
   else set_tasks
          (tasks s ++ [{| body := pcache_update_task;
                          due := (now s + pcache_update_delay)%N;
                          repeat_every := None |}])
          (set_update_triggered true s),
   []).
Proof.
  unfold schedule_pcache_update. rewrite bind_run.
  destruct (is_server e); [reflexivity|].
  rewrite !bind_run. cbn.
  destruct (update_triggered s); reflexivity.
Qed.

Lemma schedule_pcache_update_mapping (e : env) (s : state) :
  profile_mapping (state_of (schedule_pcache_update e s)) = profile_mapping s.
Proof.
  rewrite schedule_pcache_update_run. cbn.
  destruct (is_server e); [reflexivity|]. destruct (update_triggered s); reflexivity.
Qed.

Lemma add_profile_info_mapping (e : env) (user_id : Z) (info : profile_info) (s : state) :
  profile_mapping (state_of (add_profile_info e user_id info s)) =
  if decide (user_id = steam_id e) then profile_mapping s
  else <[user_id := info]> (profile_mapping s).
Proof.
  unfold add_profile_info. destruct (decide _) as [_|_]; [reflexivity|].
  rewrite state_of_bind, schedule_pcache_update_mapping. reflexivity.
Qed.

Lemma add_profile_info_trace (e : env) (user_id : Z) (info : profile_info) (s : state) :
  trace_of (add_profile_info e user_id info s) =
  if decide (user_id = steam_id e) then [] else [EvAcquire; EvRelease].
Proof.
  unfold add_profile_info. destruct (decide _) as [_|_]; [reflexivity|].
  rewrite trace_of_bind, schedule_pcache_update_run. reflexivity.
Qed.

Lemma get_profile_info_result (e : env) (user_id : Z) (s : state) :
  result_of (get_profile_info e user_id s) =
  if decide (user_id = steam_id e) then result_of (load_profile_info s)
  else profile_mapping s !! user_id.
Proof.
  unfold get_profile_info. rewrite result_of_bind. cbn.
  destruct (decide _); reflexivity.
Qed.

(** C7: after [add_profile_info(id, info)] for an [id] other than the local
    identity, [get_profile_info(id)] returns exactly [info]. *)
Theorem add_then_get_profile_info
    (e : env) (user_id : Z) (info : profile_info) (s : state) :
  user_id <> steam_id e ->
  result_of (get_profile_info e user_id (state_of (add_profile_info e user_id info s)))
  = Some info.
Proof.
  intros Hne. rewrite get_profile_info_result, add_profile_info_mapping.
  destruct (decide _) as [Heq|_]; [contradiction|].
  apply lookup_insert_eq.
Qed.

(** C8: a [profile_info] written by [serialize] into an empty buffer (the
    version fixed-width, the payload length-prefixed) is read back unchanged
    by the deserializing constructor, which consumes the whole buffer. *)
Theorem profile_info_serialize_roundtrip (len_size : nat) (info : profile_info) :
  ProfileInfo.representable len_size info ->
  ProfileInfo.read len_size (ProfileInfo.serialize len_size info []) = Some (info, []).
Proof.
  intros Hrep.
  rewrite <- (app_nil_r (ProfileInfo.serialize len_size info [])).
  apply profile_info_read_serialize. exact Hrep.
Qed.

(** C10: the handler registered under "profileInfo" returns at once on a
    message that does not come from the party host: whatever the bytes are,
    nothing is decoded, no effect is performed and the state, the registry in
    particular, is exactly as before. *)
Theorem profile_info_handler_ignores_non_host
    (e0 e : env) (s0 s : state) (tag : string)
    (handler : env -> netadr_t -> list byte -> M (option unit))
    (server : netadr_t) (data : list byte) :
  (tag, handler) ∈ result_of (post_unpack e0 s0) ->
  party_is_host e server = false ->
  tag = "profileInfo"%string /\
  handler e server data s = (Some tt, s, []) /\
  forall user_id,
    profile_mapping (state_of (handler e server data s)) !! user_id
    = profile_mapping s !! user_id.
Proof.
  intros Hin Hhost. unfold post_unpack in Hin. rewrite result_of_bind in Hin.
  destruct (is_client e0); cbn in Hin.
  - apply list_elem_of_singleton in Hin. injection Hin as -> ->.
    assert (Hrun : profile_info_handler e server data s = (Some tt, s, [])).
    { unfold profile_info_handler. rewrite Hhost. reflexivity. }
    rewrite Hrun. auto.
  - apply elem_of_nil in Hin. contradiction.
Qed.

(** ** Membership reconciliation *)

Lemma elem_of_connected_fold (x : Z) (l : list client_s) (acc : gset Z) :
  x ∈ foldl (fun connected client => connected ∪ {[ xuid client ]}) acc l <->
  x ∈ acc \/ exists client, client ∈ l /\ xuid client = x.
Proof.
  revert acc. induction l as [|c l IH]; intros acc; cbn [foldl].
  - split; [auto|]. intros [H|(c & Hc & _)]; [exact H|].
    apply elem_of_nil in Hc. contradiction.
  - rewrite IH, elem_of_union, elem_of_singleton. split.
    + intros [[H|H]|(c' & Hc' & Hx)].
      * auto.
      * right. exists c. split; [apply list_elem_of_here|auto].
      * right. exists c'. split; [apply list_elem_of_further; exact Hc'|exact Hx].
    + intros [H|(c' & Hc' & Hx)]; [auto|].
      apply elem_of_cons in Hc' as [->|Hc']; [auto|].
      right. exists c'. auto.
Qed.

Lemma elem_of_get_connected_client_xuids (e : env) (x : Z) :
  x ∈ get_connected_client_xuids e <->
  exists client, client ∈ connected_clients e /\ xuid client = x.
Proof.
  unfold get_connected_client_xuids. rewrite elem_of_connected_fold.
  split; [intros [H|H]; [|exact H]|auto].
  exfalso. revert H. apply not_elem_of_empty.
Qed.

Lemma erase_fold_lookup (xuids : gset Z) (l : list (Z * profile_info))
    (m : gmap Z profile_info) (k : Z) :
  foldl (fun m entry => if decide (entry.1 ∈ xuids) then m else delete entry.1 m) m l !! k
  = if decide (k ∈ xuids) then m !! k
    else if decide (k ∈ l.*1) then None else m !! k.
Proof.
  revert m. induction l as [|[k' v] l IH]; intros m; cbn [foldl fmap list_fmap fst].
  - destruct (decide (k ∈ xuids)); [reflexivity|].
    destruct (decide (k ∈ [])) as [H|_]; [|reflexivity].
    apply elem_of_nil in H. contradiction.
  - rewrite IH. destruct (decide (k ∈ xuids)) as [Hk|Hk].
    + destruct (decide (k' ∈ xuids)) as [_|Hk']; [reflexivity|].
      rewrite lookup_delete_ne; [reflexivity|]. intros ->. contradiction.
    + destruct (decide (k ∈ l.*1)) as [Hin|Hin];
        destruct (decide (k ∈ k' :: l.*1)) as [Hin'|Hin'].
      * reflexivity.
      * exfalso. apply Hin', list_elem_of_further, Hin.
      * apply elem_of_cons in Hin' as [->|Hin']; [|contradiction].
        destruct (decide (k' ∈ xuids)); [contradiction|]. apply lookup_delete_eq.
      * destruct (decide (k' ∈ xuids)); [reflexivity|].
        apply lookup_delete_ne. intros ->. apply Hin', list_elem_of_here.
Qed.

Lemma erase_disconnected_lookup (xuids : gset Z) (m : gmap Z profile_info) (k : Z) :
  erase_disconnected xuids m !! k = if decide (k ∈ xuids) then m !! k else None.
Proof.
  unfold erase_disconnected. rewrite erase_fold_lookup.
  destruct (decide (k ∈ xuids)); [reflexivity|].
  destruct (decide _) as [_|Hnin]; [reflexivity|].
  destruct (m !! k) as [v|] eqn:Hk; [|reflexivity].
  exfalso. apply Hnin. apply elem_of_map_to_list in Hk.
  apply (list_elem_of_fmap_2 fst) in Hk. exact Hk.
Qed.

Lemma clean_cached_profile_infos_run (e : env) (s : state) :
  clean_cached_profile_infos e s =
  if is_server_running e then
    (tt, set_profile_mapping
           (erase_disconnected (get_connected_client_xuids e) (profile_mapping s)) s,
     [EvAcquire; EvRelease])
  else (tt, s, []).
Proof.
  unfold clean_cached_profile_infos. destruct (is_server_running e); reflexivity.
Qed.

(** C6: with the server running, the sweep keeps exactly the registry entries
    whose key is the identifier of a connected client: lookup of any other
    identifier is absent afterwards, lookup of an identifier in the
    connection set is unchanged; the sweep sends nothing, its only effects
    are entering and leaving the guarded access, and the state differs from
    the one before in the registry only. *)
Theorem clean_cached_profile_infos_retains (e : env) (s : state) :
  is_server_running e = true ->
  let S := get_connected_client_xuids e in
  let r := clean_cached_profile_infos e s in
  (forall id, id ∈ S <-> exists client, client ∈ connected_clients e /\ xuid client = id) /\
  (forall id, id ∉ S -> profile_mapping (state_of r) !! id = None) /\
  (forall id, id ∈ S -> profile_mapping (state_of r) !! id = profile_mapping s !! id) /\
  send_count (trace_of r) = 0%nat /\
  trace_of r = [EvAcquire; EvRelease] /\
  state_of r = set_profile_mapping (profile_mapping (state_of r)) s.
Proof.
  intros Hrun S r. subst S r. rewrite clean_cached_profile_infos_run, Hrun. cbn.
  split; [apply elem_of_get_connected_client_xuids|].
  split; [|split; [|auto]].
  - intros id Hid. rewrite erase_disconnected_lookup. apply decide_False. exact Hid.
  - intros id Hid. rewrite erase_disconnected_lookup. apply decide_True. exact Hid.
Qed.

(** ** Facts about traces *)

Lemma received_by_app (addr : netadr_t) (t1 t2 : list event) :
  received_by addr (t1 ++ t2) = received_by addr t1 ++ received_by addr t2.
Proof.
  induction t1 as [|ev t1 IH]; [reflexivity|].
  destruct ev; cbn [app received_by]; try exact IH.
  destruct (decide _); [cbn [app]; f_equal|]; exact IH.
Qed.

Lemma received_by_sends {A} (addr : netadr_t) (f : A -> list byte) (l : list A) :
  received_by addr (map (fun x => EvSend addr "profileInfo" (f x)) l) = map f l.
Proof.
  induction l as [|x l IH]; [reflexivity|].
  cbn [map received_by]. rewrite decide_True by reflexivity. f_equal. exact IH.
Qed.

Lemma firings_app (t1 t2 : list event) : firings (t1 ++ t2) = (firings t1 + firings t2)%nat.
Proof. unfold firings. rewrite filter_app, length_app. reflexivity. Qed.

Lemma held_after_app (held : bool) (t1 t2 : list event) :
  held_after held (t1 ++ t2) = held_after (held_after held t1) t2.
Proof.
  revert held. induction t1 as [|ev t1 IH]; intros held; [reflexivity|].
  destruct ev; cbn [app held_after]; apply IH.
Qed.

Lemma sends_in_access_app (held : bool) (t1 t2 : list event) :
  sends_in_access held (t1 ++ t2)
  = sends_in_access held t1 ++ sends_in_access (held_after held t1) t2.
Proof.
  revert held. induction t1 as [|ev t1 IH]; intros held; [reflexivity|].
  destruct ev; cbn [app held_after sends_in_access]; try apply IH.
  destruct held; [cbn [app]; f_equal|]; apply IH.
Qed.

(** A trace that never enters the guarded access, started outside of it,
    has no send inside it. *)
Lemma sends_in_access_no_acquire (tr : list event) :
  Forall (fun ev => ev <> EvAcquire) tr ->
  sends_in_access false tr = [] /\ held_after false tr = false.
Proof.
  induction 1 as [|ev tr Hev _ IH]; [split; reflexivity|].
  destruct ev; cbn [sends_in_access held_after]; try exact IH. contradiction.
Qed.

(** A trace without sends has no send inside the guarded access. *)
Lemma sends_in_access_no_send (held : bool) (tr : list event) :
  Forall (fun ev => is_send ev = false) tr -> sends_in_access held tr = [].
Proof.
  intros H. revert held. induction H as [|ev tr Hev _ IH]; intros held; [reflexivity|].
  destruct ev; cbn [sends_in_access]; try apply IH. discriminate.
Qed.

Lemma sends_in_access_held_sends {A} (addr : netadr_t) (f : A -> list byte)
    (l : list A) (tr : list event) :
  sends_in_access true (map (fun x => EvSend addr "profileInfo" (f x)) l ++ tr)
  = map (fun x => EvSend addr "profileInfo" (f x)) l ++ sends_in_access true tr.
Proof.
  induction l as [|x l IH]; [reflexivity|].
  cbn [map app sends_in_access]. f_equal. exact IH.
Qed.

(** ** The scheduler *)

Lemma pcache_entries_filter (P : scheduled -> Prop) `{!forall x, Decision (P x)}
    (l : list scheduled) :
  pcache_entries (filter P l) = filter P (pcache_entries l).
Proof.
  unfold pcache_entries. induction l as [|x l IH]; [reflexivity|].
  destruct (decide (P x)) as [HP|HP];
    destruct (decide (body x = pcache_update_task)) as [Hb|Hb].
  - rewrite (filter_cons_True P) by exact HP.
    rewrite !(filter_cons_True (fun x => body x = pcache_update_task)) by exact Hb.
    rewrite (filter_cons_True P) by exact HP. f_equal. exact IH.
  - rewrite (filter_cons_True P) by exact HP.
    rewrite !(filter_cons_False (fun x => body x = pcache_update_task)) by exact Hb.
    exact IH.
  - rewrite (filter_cons_False P) by exact HP.
    rewrite (filter_cons_True (fun x => body x = pcache_update_task)) by exact Hb.
    rewrite (filter_cons_False P) by exact HP. exact IH.
  - rewrite (filter_cons_False P) by exact HP.
    rewrite (filter_cons_False (fun x => body x = pcache_update_task)) by exact Hb.
    exact IH.
Qed.

Lemma reschedule_body (t : N) (x y : scheduled) :
  reschedule t x = Some y -> body y = body x.
Proof.
  unfold reschedule. destruct (is_due t x); [|congruence].
  destruct (repeat_every x); cbn; [|discriminate]. intros [= <-]. reflexivity.
Qed.

Lemma pcache_entries_reschedule (t : N) (l : list scheduled) :
  pcache_entries (omap (reschedule t) l) = omap (reschedule t) (pcache_entries l).
Proof.
  unfold pcache_entries. induction l as [|x l IH]; [reflexivity|].
  cbn [omap list_omap].
  destruct (decide (body x = pcache_update_task)) as [Hb|Hb].
  - rewrite (filter_cons_True _ x l) by exact Hb. cbn [omap list_omap].
    destruct (reschedule t x) as [y|] eqn:Hy; [|exact IH].
    rewrite filter_cons_True by (rewrite (reschedule_body _ _ _ Hy); exact Hb).
    f_equal. exact IH.
  - rewrite (filter_cons_False _ x l) by exact Hb.
    destruct (reschedule t x) as [y|] eqn:Hy; [|exact IH].
    rewrite filter_cons_False by (rewrite (reschedule_body _ _ _ Hy); exact Hb).
    exact IH.
Qed.

Lemma run_task_run (e : env) (t : task) (s : state) :
  run_task e t s =
  match t with
  | pcache_update_task => (tt, set_update_triggered false s, [EvPCacheDelete])
  | clean_task => clean_cached_profile_infos e s
  end.
Proof. destruct t; reflexivity. Qed.

(** What running a batch of due entries does: the clock, the entries and the
    stored file stay; the flag is cleared by a firing; the registry only
    loses entries; nothing is sent. *)
Lemma run_due_spec (e : env) (l : list scheduled) (s : state) :
  let r := for_each l (fun x => run_task e (body x)) s in
  now (state_of r) = now s /\
  tasks (state_of r) = tasks s /\
  profile_file (state_of r) = profile_file s /\
  update_triggered (state_of r)
    = (if pcache_entries l is [] then update_triggered s else false) /\
  firings (trace_of r) = length (pcache_entries l) /\
  Forall (fun ev => is_send ev = false) (trace_of r) /\
  held_after false (trace_of r) = false /\
  (forall k, profile_mapping s !! k = None -> profile_mapping (state_of r) !! k = None).
Proof.
  revert s. induction l as [|x l IH]; intros s.
  - cbn. repeat split; auto.
  - cbn [for_each]. cbv zeta. rewrite state_of_bind, trace_of_bind.
    rewrite run_task_run. unfold pcache_entries.
    destruct (body x) eqn:Hb.
    + rewrite filter_cons_True by exact Hb.
      specialize (IH (set_update_triggered false s)).
      cbv zeta in IH. destruct IH as (H1 & H2 & H3 & H4 & H5 & H6 & H7 & H8).
      cbn [state_of trace_of fst snd]. rewrite H1, H2, H3, H4.
      fold (pcache_entries l) in *.
      repeat split; auto.
      * destruct (pcache_entries l); reflexivity.
      * rewrite firings_app, H5. reflexivity.
      * constructor; [reflexivity|exact H6].
    + rewrite filter_cons_False by (rewrite Hb; discriminate).
      fold (pcache_entries l).
      rewrite clean_cached_profile_infos_run.
      destruct (is_server_running e).
      * specialize (IH (set_profile_mapping
          (erase_disconnected (get_connected_client_xuids e) (profile_mapping s)) s)).
        cbv zeta in IH. destruct IH as (H1 & H2 & H3 & H4 & H5 & H6 & H7 & H8).
        cbn [state_of trace_of fst snd]. rewrite H1, H2, H3, H4.
        repeat split; auto.
        -- repeat constructor. exact H6.
        -- intros k Hk. apply H8. cbn.
           rewrite erase_disconnected_lookup. destruct (decide _); auto.
      * specialize (IH s). cbv zeta in IH. exact IH.
Qed.

Lemma scheduler_frame_run (e : env) (d : N) (s : state) :
  scheduler_frame e d s =
  let t := (now s + d)%N in
  let r := for_each (filter (fun x => is_due t x = true) (tasks s))
             (fun x => run_task e (body x))
             (set_tasks (omap (reschedule t) (tasks s)) (set_now t s)) in
  (tt, state_of r, trace_of r).
Proof.
  unfold scheduler_frame. rewrite !bind_run. cbn.
  destruct (for_each _ _ _) as [[[] s'] tr]. reflexivity.
Qed.

Lemma scheduler_frame_spec (e : env) (d : N) (s : state) :
  let t := (now s + d)%N in
  let r := scheduler_frame e d s in
  now (state_of r) = t /\
  tasks (state_of r) = omap (reschedule t) (tasks s) /\
  profile_file (state_of r) = profile_file s /\
  update_triggered (state_of r)
    = (if filter (fun x => is_due t x = true) (pcache_entries (tasks s)) is []
       then update_triggered s else false) /\
  firings (trace_of r)
    = length (filter (fun x => is_due t x = true) (pcache_entries (tasks s))) /\
  Forall (fun ev => is_send ev = false) (trace_of r) /\
  held_after false (trace_of r) = false /\
  (forall k, profile_mapping s !! k = None -> profile_mapping (state_of r) !! k = None).
Proof.
  cbv zeta. rewrite scheduler_frame_run. cbv zeta.
  cbn [state_of trace_of fst snd].
  pose proof (run_due_spec e
    (filter (fun x => is_due (now s + d) x = true) (tasks s))
    (set_tasks (omap (reschedule (now s + d)%N) (tasks s)) (set_now (now s + d)%N s)))
    as H.
  cbv zeta in H. unfold state_of, trace_of in H.
  destruct H as (H1 & H2 & H3 & H4 & H5 & H6 & H7 & H8).
  rewrite pcache_entries_filter in H4, H5.
  repeat split; auto.
Qed.

(** ** The debounced trigger *)

Lemma is_due_pending (t t' : N) :
  is_due t' {| body := pcache_update_task; due := t; repeat_every := None |}
  = bool_decide (t <= t')%N.
Proof. reflexivity. Qed.

Lemma arm_idle (e : env) (s : state) :
  is_server e = false -> idle s ->
  let r := schedule_pcache_update e s in
  armed (now s + pcache_update_delay) (state_of r) /\
  now (state_of r) = now s /\ trace_of r = [].
Proof.
  intros Hs [Hf Hp]. cbv zeta. rewrite schedule_pcache_update_run, Hs, Hf. cbn.
  split; [|auto]. split; [reflexivity|]. cbn.
  unfold pcache_entries in *. rewrite filter_app, Hp. reflexivity.
Qed.

Lemma arm_armed (e : env) (t : N) (s : state) :
  is_server e = false -> armed t s ->
  let r := schedule_pcache_update e s in
  armed t (state_of r) /\ now (state_of r) = now s /\ trace_of r = [].
Proof.
  intros Hs [Hf Hp]. cbv zeta. rewrite schedule_pcache_update_run, Hs, Hf. cbn.
  split; [|auto]. split; [reflexivity|exact Hp].
Qed.

Lemma arm_hosting (e : env) (s : state) :
  is_server e = true -> schedule_pcache_update e s = (tt, s, []).
Proof. intros Hs. rewrite schedule_pcache_update_run, Hs. reflexivity. Qed.

Lemma frame_idle (e : env) (d : N) (s : state) :
  idle s ->
  let r := scheduler_frame e d s in
  idle (state_of r) /\ firings (trace_of r) = 0%nat.
Proof.
  intros [Hf Hp]. cbv zeta.
  destruct (scheduler_frame_spec e d s) as (_ & H2 & _ & H4 & H5 & _).
  rewrite Hp in H4, H5. split; [split|].
  - rewrite H4. exact Hf.
  - rewrite H2, pcache_entries_reschedule, Hp. reflexivity.
  - exact H5.
Qed.

Lemma frame_before_due (e : env) (d t : N) (s : state) :
  armed t s -> (now s + d < t)%N ->
  let r := scheduler_frame e d s in
  armed t (state_of r) /\ firings (trace_of r) = 0%nat /\
  now (state_of r) = (now s + d)%N.
Proof.
  intros [Hf Hp] Hlt. cbv zeta.
  destruct (scheduler_frame_spec e d s) as (H1 & H2 & _ & H4 & H5 & _).
  rewrite Hp in H4, H5.
  rewrite filter_cons_False in H4, H5
    by (rewrite is_due_pending, bool_decide_eq_true; lia).
  split; [split|split].
  - rewrite H4. exact Hf.
  - rewrite H2, pcache_entries_reschedule, Hp. cbn [omap list_omap].
    unfold reschedule. rewrite is_due_pending.
    rewrite bool_decide_eq_false_2 by lia. reflexivity.
  - exact H5.
  - exact H1.
Qed.

Lemma frame_when_due (e : env) (d t : N) (s : state) :
  armed t s -> (t <= now s + d)%N ->
  let r := scheduler_frame e d s in
  idle (state_of r) /\ firings (trace_of r) = 1%nat.
Proof.
  intros [Hf Hp] Hle. cbv zeta.
  destruct (scheduler_frame_spec e d s) as (_ & H2 & _ & H4 & H5 & _).
  rewrite Hp in H4, H5.
  rewrite filter_cons_True in H4, H5
    by (rewrite is_due_pending, bool_decide_eq_true; lia).
  split; [split|].
  - exact H4.
  - rewrite H2, pcache_entries_reschedule, Hp. cbn [omap list_omap].
    unfold reschedule. rewrite is_due_pending.
    rewrite bool_decide_eq_true_2 by lia. reflexivity.
  - exact H5.
Qed.

(** While a firing is pending and not yet due, further arming and scheduler
    passes leave it pending and fire nothing. *)
Lemma burst_keeps_pending (e : env) (acts : list action) (t : N) (s : state) :
  is_server e = false ->
  armed t s -> (now s + elapsed acts < t)%N ->
  let r := run_actions e acts s in
  armed t (state_of r) /\ firings (trace_of r) = 0%nat /\
  now (state_of r) = (now s + elapsed acts)%N.
Proof.
  intros Hs. revert s. induction acts as [|a acts IH]; intros s Ha Hlt.
  - cbn. split; [exact Ha|]. split; [reflexivity|lia].
  - cbv zeta. unfold run_actions. cbn [for_each].
    rewrite state_of_bind, trace_of_bind, firings_app.
    fold (run_actions e acts). destruct a as [|d]; cbn [run_action elapsed] in *.
    + destruct (arm_armed e t s Hs Ha) as (Ha' & Hn & Ht).
      destruct (IH (state_of (schedule_pcache_update e s)) Ha') as (H1 & H2 & H3).
      { rewrite Hn. exact Hlt. }
      rewrite Ht, H2, H3, Hn. auto.
    + destruct (frame_before_due e d t s Ha) as (Ha' & Hfi & Hn); [lia|].
      destruct (IH (state_of (scheduler_frame e d s)) Ha') as (H1 & H2 & H3).
      { rewrite Hn. lia. }
      rewrite Hfi, H2, H3, Hn. split; [exact H1|]. split; [reflexivity|lia].
Qed.

(** In the hosting role arming does nothing. *)
Lemma hosting_never_fires (e : env) (acts : list action) (s : state) :
  is_server e = true -> idle s ->
  let r := run_actions e acts s in
  idle (state_of r) /\ firings (trace_of r) = 0%nat.
Proof.
  intros Hs. revert s. induction acts as [|a acts IH]; intros s Hi.
  - cbn. auto.
  - cbv zeta. unfold run_actions. cbn [for_each].
    rewrite state_of_bind, trace_of_bind, firings_app.
    fold (run_actions e acts). destruct a as [|d]; cbn [run_action].
    + rewrite arm_hosting by exact Hs. cbn [state_of trace_of fst snd].
      apply (IH s Hi).
    + destruct (frame_idle e d s Hi) as (Hi' & Hfi).
      destruct (IH _ Hi') as (H1 & H2). rewrite Hfi, H2. auto.
Qed.

(** C4: from the idle trigger, arming [N >= 1] times without the hosting
    role (the first [Arm] and those of [acts]), with scheduler passes in
    between that stay within the delay window, fires nothing during the
    window; the first scheduler pass at or after the end of the window fires
    the maintenance action exactly once and leaves the trigger idle: later
    passes fire nothing, and arming again schedules a new firing.  In the
    hosting role any run of armings and scheduler passes fires nothing. *)
Theorem schedule_pcache_update_debounce
    (e : env) (acts : list action) (d : N) (s : state) :
  idle s ->
  (is_server e = false ->
   (elapsed acts < pcache_update_delay)%N ->
   (pcache_update_delay <= elapsed acts + d)%N ->
   let burst := run_actions e (Arm :: acts) s in
   let late := scheduler_frame e d (state_of burst) in
   let again := schedule_pcache_update e (state_of late) in
   firings (trace_of burst) = 0%nat /\
   firings (trace_of late) = 1%nat /\
   idle (state_of late) /\
   (forall d', firings (trace_of (scheduler_frame e d' (state_of late))) = 0%nat) /\
   armed (now (state_of late) + pcache_update_delay) (state_of again)) /\
  (is_server e = true ->
   let r := run_actions e acts s in
   firings (trace_of r) = 0%nat /\ idle (state_of r)).
Proof.
  intros Hi. split.
  - intros Hs Hin Hout. cbv zeta.
    unfold run_actions. cbn [for_each run_action].
    rewrite state_of_bind, trace_of_bind, firings_app. fold (run_actions e acts).
    destruct (arm_idle e s Hs Hi) as (Ha & Hn & Ht).
    destruct (burst_keeps_pending e acts _ _ Hs Ha) as (Ha' & Hfi & Hn').
    { rewrite Hn. lia. }
    rewrite Ht, Hfi.
    destruct (frame_when_due e d _ _ Ha') as (Hi' & Hfi').
    { rewrite Hn', Hn. lia. }
    split; [reflexivity|]. split; [exact Hfi'|]. split; [exact Hi'|].
    split; [intros d'; apply (frame_idle e d' _ Hi')|].
    apply (arm_idle e _ Hs Hi').
  - intros Hs. cbv zeta.
    destruct (hosting_never_fires e acts s Hs Hi). auto.
Qed.

(** ** Full sync and the join composite *)

Lemma distribute_profile_infos_to_user_run (e : env) (addr : netadr_t) (s : state) :
  distribute_profile_infos_to_user e addr s =
  (tt, s,
   EvAcquire ::
     map (fun entry => EvSend addr "profileInfo" (sync_message entry))
         (map_to_list (profile_mapping s))
     ++ EvRelease ::
     map (fun data => EvSend addr "profileInfo" data) (own_info_messages e s)).
Proof.
  unfold distribute_profile_infos_to_user, access_const, own_info_messages.
  rewrite !bind_run. cbn [emit gets result_of state_of trace_of fst snd mret M_ret].
  rewrite for_each_sends. cbn [result_of state_of trace_of fst snd app].
  destruct (is_server e); cbn [negb].
  - cbn [result_of state_of trace_of fst snd mret M_ret map].
    rewrite app_nil_r. reflexivity.
  - rewrite bind_run. unfold get_local_profile_info.
    destruct (load_profile_info_pure s) as [Hst Htr]. rewrite Hst, Htr.
    destruct (result_of (load_profile_info s)) as [info|];
      cbn; rewrite <- app_assoc; reflexivity.
Qed.

Lemma received_by_broadcast (addr : netadr_t) (data : list byte) (l : list client_s) :
  received_by addr (map (fun client => EvSend (address client) "profileInfo" data) l)
  = replicate (length (filter (fun client => address client = addr) l)) data.
Proof.
  induction l as [|c l IH]; [reflexivity|].
  cbn [map received_by]. destruct (decide (address c = addr)) as [Hc|Hc].
  - rewrite filter_cons_True by exact Hc. cbn [length replicate]. f_equal. exact IH.
  - rewrite filter_cons_False by exact Hc. exact IH.
Qed.

(** C5: the trace of [add_and_distribute_profile_info(addr, id, info)] is, in
    this order: the guarded access of the full sync, in which [addr] is sent
    one message for each entry the registry holds before the call (in the
    iteration order of the map, whichever that is); the local participant's
    own info, if any; and, unless [id] is the local identity, the guarded
    access of the ingest followed by the broadcast of [(id, info)] to every
    connected client.  Hence [addr] receives the messages of all pre-existing
    entries strictly before any copy of the broadcast for [id], and the
    registry the full sync reads does not yet hold the ingested info, which
    it holds under [id] when the call returns. *)
Theorem add_and_distribute_profile_info_order
    (e : env) (addr : netadr_t) (user_id : Z) (info : profile_info) (s : state) :
  let r := add_and_distribute_profile_info e addr user_id info s in
  exists entries,
    entries ≡ₚ map_to_list (profile_mapping s) /\
    length entries = size (profile_mapping s) /\
    (forall id known, profile_mapping s !! id = Some known ->
       encode_profile_info id known ∈ map sync_message entries) /\
    trace_of r =
      (EvAcquire ::
         map (fun entry => EvSend addr "profileInfo" (sync_message entry)) entries
         ++ EvRelease ::
         map (fun data => EvSend addr "profileInfo" data) (own_info_messages e s))
      ++ (if decide (user_id = steam_id e) then []
          else [EvAcquire; EvRelease]
               ++ map (fun client =>
                         EvSend (address client) "profileInfo"
                                (encode_profile_info user_id info))
                      (connected_clients e)) /\
    received_by addr (trace_of r) =
      map sync_message entries ++ own_info_messages e s
      ++ (if decide (user_id = steam_id e) then []
          else replicate
                 (length (filter (fun client => address client = addr)
                                 (connected_clients e)))
                 (encode_profile_info user_id info)) /\
    profile_mapping (state_of r) =
      (if decide (user_id = steam_id e) then profile_mapping s
       else <[user_id := info]> (profile_mapping s)).
Proof.
  cbv zeta. exists (map_to_list (profile_mapping s)).
  assert (Htrace :
    trace_of (add_and_distribute_profile_info e addr user_id info s) =
      (EvAcquire ::
         map (fun entry => EvSend addr "profileInfo" (sync_message entry))
             (map_to_list (profile_mapping s))
         ++ EvRelease ::
         map (fun data => EvSend addr "profileInfo" data) (own_info_messages e s))
      ++ (if decide (user_id = steam_id e) then []
          else [EvAcquire; EvRelease]
               ++ map (fun client =>
                         EvSend (address client) "profileInfo"
                                (encode_profile_info user_id info))
                      (connected_clients e))).
  { unfold add_and_distribute_profile_info.
    rewrite !trace_of_bind, distribute_profile_infos_to_user_run.
    cbn [result_of state_of trace_of fst snd].
    rewrite add_profile_info_trace, distribute_profile_info_run.
    cbn [trace_of snd]. destruct (decide _); reflexivity. }
  split; [reflexivity|].
  split; [apply length_map_to_list|].
  split.
  { intros id known Hl. apply elem_of_map_to_list in Hl.
    apply (list_elem_of_fmap_2 sync_message) in Hl. exact Hl. }
  split; [exact Htrace|].
  split.
  - rewrite Htrace, received_by_app. cbn [received_by].
    rewrite received_by_app. cbn [received_by].
    rewrite (received_by_sends addr sync_message).
    rewrite (received_by_sends addr (fun data => data)), map_id.
    rewrite <- app_assoc. do 2 f_equal.
    destruct (decide _); [reflexivity|].
    cbn [app received_by]. apply received_by_broadcast.
  - unfold add_and_distribute_profile_info.
    rewrite !state_of_bind, distribute_profile_infos_to_user_run.
    cbn [result_of state_of trace_of fst snd].
    rewrite distribute_profile_info_run. cbn [state_of fst snd].
    apply add_profile_info_mapping.
Qed.

(** ** Sends and the guarded access *)

Lemma sends_in_access_free_sends {A} (f : A -> event) (l : list A) (rest : list event) :
  (forall x, exists to tag data, f x = EvSend to tag data) ->
  sends_in_access false (map f l ++ rest) = sends_in_access false rest.
Proof.
  intros Hf. induction l as [|x l IH]; [reflexivity|].
  cbn [map app]. destruct (Hf x) as (to & tag & data & ->). exact IH.
Qed.

Lemma sends_in_access_sync (addr : netadr_t) (l : list (Z * profile_info))
    (own : list (list byte)) (rest : list event) :
  sends_in_access false
    ((EvAcquire ::
        map (fun entry => EvSend addr "profileInfo" (sync_message entry)) l
        ++ EvRelease :: map (fun data => EvSend addr "profileInfo" data) own)
     ++ rest)
  = map (fun entry => EvSend addr "profileInfo" (sync_message entry)) l
    ++ sends_in_access false rest.
Proof.
  cbn [app sends_in_access]. rewrite <- app_assoc.
  rewrite (sends_in_access_held_sends addr sync_message).
  cbn [app sends_in_access]. f_equal.
  apply sends_in_access_free_sends. intros x. eauto.
Qed.

Lemma distribute_profile_info_outside (e : env) (user_id : Z) (info : profile_info)
    (s : state) :
  sends_in_access false (trace_of (distribute_profile_info e user_id info s)) = [].
Proof.
  rewrite distribute_profile_info_run. cbn [trace_of snd].
  destruct (decide _); [reflexivity|].
  rewrite <- (app_nil_r (map _ _)).
  apply (sends_in_access_free_sends _ _ []). intros x. eauto.
Qed.

Lemma add_profile_info_outside (e : env) (user_id : Z) (info : profile_info) (s : state) :
  sends_in_access false (trace_of (add_profile_info e user_id info s)) = [] /\
  held_after false (trace_of (add_profile_info e user_id info s)) = false.
Proof.
  rewrite add_profile_info_trace. destruct (decide _); split; reflexivity.
Qed.

Lemma get_profile_info_run (e : env) (user_id : Z) (s : state) :
  state_of (get_profile_info e user_id s) = s /\
  trace_of (get_profile_info e user_id s) =
    EvPrintf user_id ::
      (if decide (user_id = steam_id e) then [] else [EvAcquire; EvRelease]).
Proof.
  unfold get_profile_info. rewrite state_of_bind, trace_of_bind.
  cbn [emit result_of state_of trace_of fst snd]. unfold get_local_profile_info.
  destruct (decide _).
  - destruct (load_profile_info_pure s) as [-> ->]. split; reflexivity.
  - split; reflexivity.
Qed.

Lemma profile_info_handler_cases (e : env) (server : netadr_t) (data : list byte)
    (s : state) :
  profile_info_handler e server data s = (Some tt, s, []) \/
  profile_info_handler e server data s = (None, s, []) \/
  exists user_id info,
    state_of (profile_info_handler e server data s)
      = state_of (add_profile_info e user_id info s) /\
    trace_of (profile_info_handler e server data s)
      = trace_of (add_profile_info e user_id info s).
Proof.
  unfold profile_info_handler.
  destruct (party_is_host e server); cbn [negb]; [|auto].
  destruct (read_uint 8 data) as [[user_id buffer]|]; [|auto].
  destruct (ProfileInfo.read string_length_size buffer) as [[info rest]|]; [|auto].
  right. right. exists user_id, info.
  rewrite state_of_bind, trace_of_bind. cbn [mret M_ret state_of trace_of fst snd].
  rewrite app_nil_r. split; reflexivity.
Qed.

(** C3 (amended): every operation of the component other than the full sync
    keeps its sends out of the guarded access to [profile_mapping];
    [distribute_profile_infos_to_user], and with it
    [add_and_distribute_profile_info], sends the message of each registry
    entry while inside the guarded access, and nothing else from there. *)
Theorem sends_in_access_of_operation (e : env) (o : operation) (s : state) :
  sends_in_access false (trace_of (run_operation e o s)) =
  match o with
  | OpDistributeProfileInfosToUser addr
  | OpAddAndDistributeProfileInfo addr _ _ =>
      map (fun entry => EvSend addr "profileInfo" (sync_message entry))
          (map_to_list (profile_mapping s))
  | _ => []
  end.
Proof.
  destruct o as [user_id info|addr user_id info|addr|addr user_id info| | |user_id|info|
                 |server data|d]; cbn [run_operation].
  - apply add_profile_info_outside.
  - reflexivity.
  - rewrite distribute_profile_infos_to_user_run. cbn [trace_of snd].
    rewrite <- (app_nil_r (EvAcquire :: _)).
    rewrite sends_in_access_sync. apply app_nil_r.
  - unfold add_and_distribute_profile_info.
    rewrite !trace_of_bind, distribute_profile_infos_to_user_run.
    cbn [result_of state_of trace_of fst snd].
    rewrite sends_in_access_sync, sends_in_access_app.
    destruct (add_profile_info_outside e user_id info s) as [-> ->].
    rewrite distribute_profile_info_outside. apply app_nil_r.
  - reflexivity.
  - rewrite trace_of_bind. unfold get_local_profile_info.
    destruct (load_profile_info_pure s) as [_ ->]. reflexivity.
  - rewrite trace_of_bind.
    destruct (get_profile_info_run e user_id s) as [_ ->].
    destruct (decide _); reflexivity.
  - reflexivity.
  - rewrite trace_of_bind. unfold post_unpack. rewrite trace_of_bind, state_of_bind.
    cbn [scheduler_loop modify result_of state_of trace_of fst snd].
    destruct (is_client e); reflexivity.
  - rewrite trace_of_bind. cbn [mret M_ret trace_of snd]. rewrite app_nil_r.
    destruct (profile_info_handler_cases e server data s)
      as [->|[->|(user_id & info & _ & ->)]]; [reflexivity|reflexivity|].
    apply add_profile_info_outside.
  - apply sends_in_access_no_send.
    apply (scheduler_frame_spec e d s).
Qed.

(** ** The registry never holds the local identity *)

(** Self-filtering: an ingest under the local identity does nothing at all. *)
Lemma add_profile_info_self (e : env) (info : profile_info) (s : state) :
  add_profile_info e (steam_id e) info s = (tt, s, []).
Proof. unfold add_profile_info. rewrite decide_True by reflexivity. reflexivity. Qed.

Lemma add_profile_info_keeps_absent (e : env) (user_id : Z) (info : profile_info)
    (s : state) :
  profile_mapping s !! steam_id e = None ->
  profile_mapping (state_of (add_profile_info e user_id info s)) !! steam_id e = None.
Proof.
  intros Hs. rewrite add_profile_info_mapping.
  destruct (decide (user_id = steam_id e)) as [_|Hne]; [exact Hs|].
  rewrite lookup_insert_ne by exact Hne. exact Hs.
Qed.

Lemma clear_profile_infos_mapping (s : state) :
  profile_mapping (state_of (clear_profile_infos s)) = ∅.
Proof. reflexivity. Qed.

Lemma run_operation_keeps_absent (e : env) (o : operation) (s : state) :
  profile_mapping s !! steam_id e = None ->
  profile_mapping (state_of (run_operation e o s)) !! steam_id e = None.
Proof.
  intros Hs.
  destruct o as [user_id info|addr user_id info|addr|addr user_id info| | |user_id|info|
                 |server data|d]; cbn [run_operation].
  - apply add_profile_info_keeps_absent, Hs.
  - exact Hs.
  - rewrite distribute_profile_infos_to_user_run. exact Hs.
  - unfold add_and_distribute_profile_info.
    rewrite !state_of_bind, distribute_profile_infos_to_user_run.
    cbn [result_of state_of trace_of fst snd].
    rewrite distribute_profile_info_run. cbn [state_of fst snd].
    apply add_profile_info_keeps_absent, Hs.
  - rewrite clear_profile_infos_mapping. apply lookup_empty.
  - rewrite state_of_bind. unfold get_local_profile_info.
    destruct (load_profile_info_pure s) as [-> _]. exact Hs.
  - rewrite state_of_bind.
    destruct (get_profile_info_run e user_id s) as [-> _]. exact Hs.
  - exact Hs.
  - rewrite state_of_bind. unfold post_unpack. rewrite state_of_bind.
    cbn [scheduler_loop modify result_of state_of trace_of fst snd].
    destruct (is_client e); exact Hs.
  - rewrite state_of_bind. cbn [mret M_ret state_of fst snd].
    destruct (profile_info_handler_cases e server data s)
      as [->|[->|(user_id & info & -> & _)]]; [exact Hs|exact Hs|].
    apply add_profile_info_keeps_absent, Hs.
  - apply (scheduler_frame_spec e d s), Hs.
Qed.

(** C9: in every state the process reaches from a state with an empty
    registry, by any sequence of entry-point calls, delivered messages and
    scheduler passes, the registry has no entry under the local identity. *)
Theorem registry_never_holds_local_identity (local : Z) (s0 s : state) :
  profile_mapping s0 = ∅ ->
  rtc (step local) s0 s ->
  profile_mapping s !! local = None.
Proof.
  intros Hempty Hreach.
  assert (H0 : profile_mapping s0 !! local = None) by (rewrite Hempty; apply lookup_empty).
  clear Hempty. induction Hreach as [s|s1 s2 s3 Hstep _ IH]; [exact H0|].
  apply IH. destruct Hstep as [e o s1 <-].
  apply run_operation_keeps_absent, H0.
Qed.

(** ** Further properties of the encodings *)

Lemma le_bytes_le_value (bs : list byte) : le_bytes (length bs) (le_value bs) = bs.
Proof.
  induction bs as [|b bs IH]; [reflexivity|].
  cbn [length le_bytes le_value]. pose proof (Z_of_byte_range b) as Hb.
  rewrite (Z.mul_comm 256). f_equal.
  - unfold byte_of_Z. rewrite Z.mod_add by lia. rewrite Z.mod_small by lia.
    unfold Z_of_byte. rewrite N2Z.id, Byte.of_to_N. reflexivity.
  - rewrite Z.div_add by lia. rewrite Z.div_small by lia. exact IH.
Qed.

Lemma le_bytes_int32_of_bytes (bs : list byte) :
  length bs = 4%nat -> le_bytes 4 (int32_of_bytes bs) = bs.
Proof.
  intros Hl.
  assert (Hv : le_value (le_bytes 4 (int32_of_bytes bs)) = le_value bs).
  { rewrite le_value_le_bytes. change (2 ^ (8 * Z.of_nat 4)) with (2 ^ 32).
    pose proof (le_value_range bs) as Hr. rewrite Hl in Hr.
    change (2 ^ (8 * Z.of_nat 4)) with (2 ^ 32) in Hr.
    unfold int32_of_bytes. destruct (Z.ltb_spec (le_value bs) (2 ^ 31)).
    - apply Z.mod_small. lia.
    - replace (le_value bs - 2 ^ 32) with (le_value bs + (-1) * 2 ^ 32) by lia.
      rewrite Z.mod_add by lia. apply Z.mod_small. lia. }
  pose proof (le_bytes_le_value (le_bytes 4 (int32_of_bytes bs))) as A.
  rewrite length_le_bytes, Hv in A.
  pose proof (le_bytes_le_value bs) as B. rewrite Hl in B.
  congruence.
Qed.

Lemma read_raw_Some (n : nat) (buffer bs rest : list byte) :
  read_raw n buffer = Some (bs, rest) ->
  bs ++ rest = buffer /\ length bs = n /\ (n <= length buffer)%nat.
Proof.
  unfold read_raw. destruct (decide _) as [Hn|]; [|discriminate].
  intros [= <- <-]. split; [apply take_drop|]. split; [|exact Hn].
  rewrite length_take. lia.
Qed.

Lemma read_raw_short (n : nat) (buffer : list byte) :
  (length buffer < n)%nat -> read_raw n buffer = None.
Proof. intros Hl. unfold read_raw. destruct (decide _); [lia|reflexivity]. Qed.

Lemma serialize_app (len_size : nat) (info : profile_info) (buffer : byte_buffer) :
  ProfileInfo.serialize len_size info buffer
  = buffer ++ ProfileInfo.serialize len_size info [].
Proof.
  unfold ProfileInfo.serialize, write_string, write.
  rewrite app_nil_l, <- !app_assoc. reflexivity.
Qed.

Lemma serialize_layout (len_size : nat) (info : profile_info) :
  ProfileInfo.serialize len_size info []
  = le_bytes 4 (version info)
    ++ le_bytes len_size (Z.of_nat (length (ddl info))) ++ ddl info.
Proof.
  unfold ProfileInfo.serialize, write_string, write.
  rewrite app_nil_l, <- app_assoc. reflexivity.
Qed.

(** What a successful decode consumed is the encoding of its result. *)
Lemma profile_info_read_inv (len_size : nat) (buffer rest : byte_buffer)
    (info : profile_info) :
  ProfileInfo.read len_size buffer = Some (info, rest) ->
  ProfileInfo.serialize len_size info [] ++ rest = buffer /\
  ProfileInfo.representable len_size info.
Proof.
  unfold ProfileInfo.read, read_int32, read_string, read_uint. intros H.
  destruct (read_raw 4 buffer) as [[vb b1]|] eqn:H1; [|discriminate].
  cbn [mbind option_bind] in H.
  destruct (read_raw len_size b1) as [[lb b2]|] eqn:H2; [|discriminate].
  cbn [mbind option_bind] in H.
  destruct (read_raw (Z.to_nat (le_value lb)) b2) as [[d b3]|] eqn:H3; [|discriminate].
  cbn [mbind option_bind] in H. injection H as <- <-.
  apply read_raw_Some in H1 as (E1 & L1 & _).
  apply read_raw_Some in H2 as (E2 & L2 & _).
  apply read_raw_Some in H3 as (E3 & L3 & _).
  pose proof (le_value_range lb) as Hr. rewrite L2 in Hr.
  assert (Hd : Z.of_nat (length d) = le_value lb) by lia.
  split.
  - rewrite serialize_layout. cbn [version ddl].
    rewrite le_bytes_int32_of_bytes by exact L1.
    rewrite Hd. rewrite <- L2 at 1. rewrite le_bytes_le_value.
    rewrite <- E1, <- E2, <- E3, <- !app_assoc. reflexivity.
  - split; cbn [version ddl].
    + apply int32_of_bytes_range. exact L1.
    + rewrite Hd. apply Hr.
Qed.

(** ** Further properties of the local profile store *)

(** X1: from a stored blob of at least eight bytes [load_profile_info]
    returns the version held in the first four bytes and the remaining bytes
    as payload, without any effect; saving that value again writes the very
    same blob. *)
Theorem load_profile_info_long_blob (s : state) (data : list byte) :
  profile_file s = Some data ->
  (8 <= length data)%nat ->
  exists info,
    load_profile_info s = (Some info, s, []) /\
    version info = int32_of_bytes (take 4 data) /\
    int32_range (version info) /\
    ddl info = drop 4 data /\
    length (ddl info) = (length data - 4)%nat /\
    profile_file (state_of (update_profile_info info s)) = Some data.
Proof.
  intros Hf Hl.
  exists {| version := int32_of_bytes (take 4 data); ddl := drop 4 data |}.
  assert (Htake : length (take 4 data) = 4%nat) by (rewrite length_take; lia).
  split.
  { unfold load_profile_info. rewrite bind_run. cbn. rewrite Hf.
    destruct (decide _) as [Hlt|_]; [unfold sizeof_size_t in Hlt; lia|reflexivity]. }
  cbn [version ddl]. split; [reflexivity|].
  split; [apply int32_of_bytes_range, Htake|].
  split; [reflexivity|]. split; [apply length_drop|].
  unfold update_profile_info, sizeof_version, modify, state_of.
  cbn [fst snd profile_file set_profile_file version ddl].
  rewrite le_bytes_int32_of_bytes by exact Htake. rewrite take_drop. reflexivity.
Qed.

(** X2: a profile whose payload has at least four bytes survives saving and
    loading: after [update_profile_info(info)] both [load_profile_info] and
    [get_profile_info] under the local identity return [info], whatever the
    registry holds. *)
Theorem update_then_load_profile_info (e : env) (info : profile_info) (s : state) :
  int32_range (version info) ->
  (4 <= length (ddl info))%nat ->
  let saved := state_of (update_profile_info info s) in
  result_of (load_profile_info saved) = Some info /\
  forall m,
    result_of (get_profile_info e (steam_id e) (set_profile_mapping m saved)) = Some info.
Proof.
  intros Hv Hl. cbv zeta.
  assert (Hload : forall m,
    result_of (load_profile_info
                 (set_profile_mapping m (state_of (update_profile_info info s))))
    = Some info).
  { intros m. unfold load_profile_info. rewrite bind_run.
    unfold update_profile_info, modify, gets, result_of, state_of, trace_of.
    cbn [fst snd profile_file set_profile_file set_profile_mapping].
    destruct (decide _) as [Hlt|_].
    - rewrite length_app, length_le_bytes in Hlt.
      unfold sizeof_size_t, sizeof_version in Hlt. lia.
    - cbn [mret M_ret fst snd]. unfold sizeof_version.
      rewrite take_app_length' by (symmetry; apply length_le_bytes).
      rewrite drop_app_length' by (symmetry; apply length_le_bytes).
      rewrite int32_of_le_bytes by exact Hv. destruct info; reflexivity. }
  split.
  - apply (Hload (profile_mapping s)).
  - intros m. rewrite get_profile_info_result, decide_True by reflexivity. apply Hload.
Qed.

(** X3: decoding is canonical.  When the deserializing constructor succeeds,
    the bytes it consumed are exactly the serialization of the value it
    returns, that value fits the C++ type, and decoding its serialization in
    front of any other bytes returns it again. *)
Theorem profile_info_read_canonical (len_size : nat) (buffer rest : byte_buffer)
    (info : profile_info) :
  ProfileInfo.read len_size buffer = Some (info, rest) ->
  ProfileInfo.serialize len_size info [] ++ rest = buffer /\
  ProfileInfo.representable len_size info /\
  forall rest',
    ProfileInfo.read len_size (ProfileInfo.serialize len_size info [] ++ rest')
    = Some (info, rest').
Proof.
  intros H. apply profile_info_read_inv in H as [Henc Hrep].
  split; [exact Henc|]. split; [exact Hrep|].
  intros rest'. apply profile_info_read_serialize, Hrep.
Qed.

(** X4: a truncated encoding never decodes.  For a value that fits the C++
    type, the deserializing constructor fails on every strict prefix of its
    serialization. *)
Theorem profile_info_read_truncated (len_size : nat) (info : profile_info) (k : nat) :
  ProfileInfo.representable len_size info ->
  (k < length (ProfileInfo.serialize len_size info []))%nat ->
  ProfileInfo.read len_size (take k (ProfileInfo.serialize len_size info [])) = None.
Proof.
  intros [Hv Hl]. rewrite serialize_layout.
  set (V := le_bytes 4 (version info)).
  set (L := le_bytes len_size (Z.of_nat (length (ddl info)))).
  assert (HV : length V = 4%nat) by apply length_le_bytes.
  assert (HL : length L = len_size) by apply length_le_bytes.
  rewrite !length_app, HV, HL. intros Hk.
  unfold ProfileInfo.read.
  destruct (decide (k < 4)%nat) as [Hk4|Hk4].
  { unfold read_int32. rewrite read_raw_short; [reflexivity|].
    rewrite length_take, !length_app. lia. }
  rewrite take_app_ge by lia. rewrite HV. unfold V.
  rewrite read_int32_write by exact Hv. cbn [mbind option_bind].
  unfold read_string.
  destruct (decide (k - 4 < len_size)%nat) as [Hkl|Hkl].
  { unfold read_uint. rewrite read_raw_short; [reflexivity|].
    rewrite length_take, !length_app. lia. }
  rewrite take_app_ge by lia. rewrite HL. unfold L.
  rewrite read_uint_write. cbn [mbind option_bind].
  rewrite Z.mod_small by lia. rewrite Nat2Z.id.
  assert (Hshort : read_raw (length (ddl info)) (take (k - 4 - len_size) (ddl info))
                   = None).
  { apply read_raw_short. rewrite length_take. lia. }
  rewrite Hshort. reflexivity.
Qed.

(** ** Further properties of the message handler *)

Lemma encode_profile_info_layout (user_id : Z) (info : profile_info) :
  encode_profile_info user_id info
  = le_bytes 8 user_id ++ ProfileInfo.serialize string_length_size info [].
Proof. unfold encode_profile_info. rewrite serialize_app. reflexivity. Qed.

(** X5: what [distribute_profile_info_to_user] and [distribute_profile_info]
    put on the wire is what the handler takes off it.  Delivered from the
    party host, the encoding of [(user_id, info)] makes the handler perform
    exactly [add_profile_info(user_id, info)]; for an identity other than the
    receiver's own, [get_profile_info(user_id)] then returns [info]. *)
Theorem profile_info_handler_ingests_encoded
    (e : env) (server : netadr_t) (user_id : Z) (info : profile_info) (s : state) :
  party_is_host e server = true ->
  uint64_range user_id ->
  ProfileInfo.representable string_length_size info ->
  let r := profile_info_handler e server (encode_profile_info user_id info) s in
  r = (Some tt, state_of (add_profile_info e user_id info s),
       trace_of (add_profile_info e user_id info s)) /\
  (user_id <> steam_id e ->
   result_of (get_profile_info e user_id (state_of r)) = Some info).
Proof.
  intros Hhost Hid Hrep. cbv zeta.
  assert (Hrun : profile_info_handler e server (encode_profile_info user_id info) s
                 = (Some tt, state_of (add_profile_info e user_id info s),
                    trace_of (add_profile_info e user_id info s))).
  { unfold profile_info_handler. rewrite Hhost. cbn [negb].
    rewrite encode_profile_info_layout, read_uint_write.
    change (2 ^ (8 * Z.of_nat 8)) with (2 ^ 64).
    rewrite Z.mod_small by exact Hid.
    rewrite <- (app_nil_r (ProfileInfo.serialize _ _ _)).
    rewrite profile_info_read_serialize by exact Hrep.
    rewrite bind_run. cbn [mret M_ret result_of state_of trace_of fst snd].
    rewrite app_nil_r. reflexivity. }
  rewrite Hrun. split; [reflexivity|].
  intros Hne. cbn [state_of fst snd].
  rewrite get_profile_info_result, add_profile_info_mapping.
  rewrite !decide_False by exact Hne. apply lookup_insert_eq.
Qed.

(** X6: a message from the party host that is shorter than the fixed part of
    the encoding (identifier, version and length prefix) fails to decode, and
    the handler leaves without any effect. *)
Theorem profile_info_handler_short_message
    (e : env) (server : netadr_t) (data : list byte) (s : state) :
  party_is_host e server = true ->
  (length data < 8 + 4 + string_length_size)%nat ->
  profile_info_handler e server data s = (None, s, []).
Proof.
  intros Hhost Hl. unfold profile_info_handler. rewrite Hhost. cbn [negb].
  unfold read_uint.
  destruct (read_raw 8 data) as [[ib b1]|] eqn:H1; [|reflexivity].
  cbn [mbind option_bind].
  apply read_raw_Some in H1 as (E1 & L1 & _).
  assert (Hb1 : (length b1 < 4 + string_length_size)%nat).
  { rewrite <- E1, length_app in Hl. lia. }
  unfold ProfileInfo.read, read_int32.
  destruct (read_raw 4 b1) as [[vb b2]|] eqn:H2; [|reflexivity].
  cbn [mbind option_bind].
  apply read_raw_Some in H2 as (E2 & L2 & _).
  unfold read_string, read_uint. rewrite read_raw_short; [reflexivity|].
  rewrite <- E2, length_app in Hb1. lia.
Qed.

(** ** Further properties of the registry *)

Lemma add_profile_info_state (e : env) (user_id : Z) (info : profile_info) (s : state) :
  state_of (add_profile_info e user_id info s) =
  if decide (user_id = steam_id e) then s
  else state_of (schedule_pcache_update e
                   (set_profile_mapping (<[user_id := info]> (profile_mapping s)) s)).
Proof.
  unfold add_profile_info. destruct (decide _); [reflexivity|].
  rewrite state_of_bind. reflexivity.
Qed.

(** X7: an ingest touches one key only and the last write wins: every other
    entry and the stored profile are as before, and ingesting twice under one
    identifier leaves the registry as the second ingest alone would. *)
Theorem add_profile_info_overwrites_one_key
    (e : env) (user_id : Z) (first second : profile_info) (s : state) :
  (forall other, other <> user_id ->
     profile_mapping (state_of (add_profile_info e user_id first s)) !! other
     = profile_mapping s !! other) /\
  profile_file (state_of (add_profile_info e user_id first s)) = profile_file s /\
  profile_mapping
    (state_of (add_profile_info e user_id second
                 (state_of (add_profile_info e user_id first s))))
  = profile_mapping (state_of (add_profile_info e user_id second s)).
Proof.
  split; [|split].
  - intros other Hne. rewrite add_profile_info_mapping.
    destruct (decide _); [reflexivity|]. apply lookup_insert_ne. congruence.
  - rewrite add_profile_info_state. destruct (decide _); [reflexivity|].
    rewrite schedule_pcache_update_run. cbn.
    destruct (is_server e); [reflexivity|]. destruct (update_triggered s); reflexivity.
  - rewrite !add_profile_info_mapping. destruct (decide _); [reflexivity|].
    apply insert_insert_eq.
Qed.

Lemma add_profile_info_when_idle (e : env) (user_id : Z) (info : profile_info)
    (s : state) :
  is_server e = false -> user_id <> steam_id e -> idle s ->
  let s' := state_of (add_profile_info e user_id info s) in
  armed (now s + pcache_update_delay) s' /\
  tasks s' = tasks s ++ [{| body := pcache_update_task;
                            due := (now s + pcache_update_delay)%N;
                            repeat_every := None |}].
Proof.
  intros Hs Hne [Hf Hp]. cbv zeta. rewrite add_profile_info_state.
  rewrite decide_False by exact Hne.
  rewrite schedule_pcache_update_run. cbn. rewrite Hs, Hf. cbn.
  split; [|reflexivity]. split; [reflexivity|]. cbn.
  unfold pcache_entries in *. rewrite filter_app, Hp. reflexivity.
Qed.

Lemma add_profile_info_when_armed (e : env) (user_id : Z) (info : profile_info)
    (t : N) (s : state) :
  is_server e = false -> armed t s ->
  let s' := state_of (add_profile_info e user_id info s) in
  armed t s' /\ tasks s' = tasks s.
Proof.
  intros Hs [Hf Hp]. cbv zeta. rewrite add_profile_info_state.
  destruct (decide _); [split; [split|]; auto|].
  rewrite schedule_pcache_update_run. cbn. rewrite Hs, Hf. cbn.
  split; [split|]; auto.
Qed.

Lemma add_profile_infos_when_armed (e : env) (entries : list (Z * profile_info))
    (t : N) (s : state) :
  is_server e = false -> armed t s ->
  let s' := state_of (add_profile_infos e entries s) in
  armed t s' /\ tasks s' = tasks s.
Proof.
  intros Hs. revert s. induction entries as [|[id info] entries IH]; intros s Ha.
  - cbn. auto.
  - cbv zeta. unfold add_profile_infos. cbn [for_each]. rewrite state_of_bind.
    fold (add_profile_infos e entries). cbn [fst snd].
    destruct (add_profile_info_when_armed e id info t s Hs Ha) as [Ha' Ht].
    destruct (IH _ Ha') as [Ha'' Ht']. split; [exact Ha''|congruence].
Qed.

(** X8: ingests coalesce.  On a process that is not hosting, a burst of
    ingests starting with the trigger idle, of which at least one is for
    another participant, leaves exactly one new scheduler entry behind: the
    one-shot cache update, due one delay after the burst began.  On a hosting
    process a burst schedules nothing and leaves the flag alone. *)
Theorem add_profile_infos_schedule_once
    (e : env) (entries : list (Z * profile_info)) (s : state) :
  (is_server e = false ->
   idle s ->
   Exists (fun entry => entry.1 <> steam_id e) entries ->
   let s' := state_of (add_profile_infos e entries s) in
   update_triggered s' = true /\
   tasks s' = tasks s ++ [{| body := pcache_update_task;
                             due := (now s + pcache_update_delay)%N;
                             repeat_every := None |}]) /\
  (is_server e = true ->
   let s' := state_of (add_profile_infos e entries s) in
   update_triggered s' = update_triggered s /\ tasks s' = tasks s).
Proof.
  split.
  - intros Hs. revert s.
    induction entries as [|[id info] entries IH]; intros s Hi Hex; cbv zeta.
    { apply Exists_nil in Hex. contradiction. }
    unfold add_profile_infos. cbn [for_each]. rewrite state_of_bind.
    fold (add_profile_infos e entries). cbn [fst snd].
    destruct (decide (id = steam_id e)) as [->|Hne].
    + rewrite add_profile_info_self. cbn [state_of fst snd].
      apply (IH s Hi). apply Exists_cons in Hex as [Hex|Hex]; [|exact Hex].
      cbn in Hex. contradiction.
    + destruct (add_profile_info_when_idle e id info s Hs Hne Hi) as [Ha Ht].
      destruct (add_profile_infos_when_armed e entries _ _ Hs Ha) as [[Hf _] Ht'].
      split; [exact Hf|congruence].
  - intros Hs. revert s. induction entries as [|[id info] entries IH]; intros s; cbv zeta.
    { split; reflexivity. }
    unfold add_profile_infos. cbn [for_each]. rewrite state_of_bind.
    fold (add_profile_infos e entries). cbn [fst snd].
    destruct (IH (state_of (add_profile_info e id info s))) as [Hf Ht].
    rewrite Hf, Ht, add_profile_info_state.
    destruct (decide _); [split; reflexivity|].
    rewrite arm_hosting by exact Hs. split; reflexivity.
Qed.

Lemma received_by_other (addr addr' : netadr_t) {A} (f : A -> list byte) (l : list A) :
  addr' <> addr ->
  received_by addr' (map (fun x => EvSend addr "profileInfo" (f x)) l) = [].
Proof.
  intros Hne. induction l as [|x l IH]; [reflexivity|].
  cbn [map received_by]. rewrite decide_False by congruence. exact IH.
Qed.

Lemma send_count_app (t1 t2 : list event) :
  send_count (t1 ++ t2) = (send_count t1 + send_count t2)%nat.
Proof. unfold send_count. rewrite filter_app, length_app. reflexivity. Qed.

Lemma send_count_sends {A} (f : A -> event) (l : list A) :
  (forall x, is_send (f x) = true) -> send_count (map f l) = length l.
Proof.
  intros Hf. unfold send_count. induction l as [|x l IH]; [reflexivity|].
  cbn [map]. rewrite filter_cons_True by apply Hf. cbn [length]. rewrite IH. reflexivity.
Qed.

Lemma send_count_no_send (tr : list event) :
  Forall (fun ev => is_send ev = false) tr -> send_count tr = 0%nat.
Proof.
  unfold send_count. induction 1 as [|ev tr Hev _ IH]; [reflexivity|].
  rewrite filter_cons_False by (rewrite Hev; discriminate). exact IH.
Qed.

Lemma own_info_messages_file (e : env) (s1 s2 : state) :
  profile_file s1 = profile_file s2 -> own_info_messages e s1 = own_info_messages e s2.
Proof.
  intros Hf. unfold own_info_messages, load_profile_info. rewrite !bind_run.
  cbn [gets result_of state_of trace_of fst snd]. rewrite Hf.
  destruct (profile_file s2) as [data|]; [|reflexivity].
  destruct (decide _); reflexivity.
Qed.

(** X9: [clear_profile_infos] forgets every participant and nothing else.
    Afterwards [get_profile_info] is absent for every identity but the local
    one, a full sync delivers nothing but the local participant's own info,
    and flag, stored profile and scheduler are as before. *)
Theorem clear_profile_infos_forgets (e : env) (addr : netadr_t) (s : state) :
  let cleared := state_of (clear_profile_infos s) in
  cleared = set_profile_mapping ∅ s /\
  (forall user_id, user_id <> steam_id e ->
     result_of (get_profile_info e user_id cleared) = None) /\
  received_by addr (trace_of (distribute_profile_infos_to_user e addr cleared))
  = own_info_messages e s.
Proof.
  cbv zeta. split; [reflexivity|]. split.
  - intros user_id Hne. rewrite get_profile_info_result, decide_False by exact Hne.
    apply lookup_empty.
  - rewrite distribute_profile_infos_to_user_run. cbn [trace_of snd received_by].
    change (profile_mapping (state_of (clear_profile_infos s)))
      with (∅ : gmap Z profile_info).
    rewrite map_to_list_empty. cbn [map app received_by].
    rewrite (received_by_sends addr (fun data => data)), map_id.
    apply own_info_messages_file. reflexivity.
Qed.

(** ** Further properties of the sweep *)

Lemma erase_disconnected_idempotent (xuids : gset Z) (m : gmap Z profile_info) :
  erase_disconnected xuids (erase_disconnected xuids m) = erase_disconnected xuids m.
Proof.
  apply map_eq. intros k. rewrite !erase_disconnected_lookup.
  destruct (decide _); reflexivity.
Qed.

Lemma erase_disconnected_subseteq (xuids : gset Z) (m : gmap Z profile_info) :
  erase_disconnected xuids m ⊆ m.
Proof.
  apply map_subseteq_spec. intros k v. rewrite erase_disconnected_lookup.
  destruct (decide _); [auto|discriminate].
Qed.

(** X10: the sweep only removes and is idempotent: the registry after it is
    part of the registry before, never larger, and sweeping again with the
    same connections changes nothing. *)
Theorem clean_cached_profile_infos_idempotent (e : env) (s : state) :
  let swept := state_of (clean_cached_profile_infos e s) in
  profile_mapping swept ⊆ profile_mapping s /\
  (size (profile_mapping swept) <= size (profile_mapping s))%nat /\
  state_of (clean_cached_profile_infos e swept) = swept.
Proof.
  cbv zeta. rewrite !clean_cached_profile_infos_run.
  destruct (is_server_running e) eqn:Hrun;
    cbn [state_of fst snd set_profile_mapping profile_mapping].
  - split; [apply erase_disconnected_subseteq|].
    split; [apply map_subseteq_size, erase_disconnected_subseteq|].
    rewrite erase_disconnected_idempotent. reflexivity.
  - split; [reflexivity|]. split; [lia|reflexivity].
Qed.

(** X11: an ingested participant survives the next sweep exactly when it is
    connected: after [add_profile_info(id, info)] for another participant and
    a sweep with the server running, the registry maps [id] to [info] if some
    connected client has that identifier, and has no entry for it otherwise. *)
Theorem add_then_clean_cached_profile_infos
    (e : env) (user_id : Z) (info : profile_info) (s : state) :
  user_id <> steam_id e ->
  is_server_running e = true ->
  let swept := state_of (clean_cached_profile_infos e
                           (state_of (add_profile_info e user_id info s))) in
  ((exists client, client ∈ connected_clients e /\ xuid client = user_id) ->
   profile_mapping swept !! user_id = Some info) /\
  ((forall client, client ∈ connected_clients e -> xuid client <> user_id) ->
   profile_mapping swept !! user_id = None).
Proof.
  intros Hne Hrun. cbv zeta. rewrite clean_cached_profile_infos_run, Hrun.
  cbn [state_of fst snd set_profile_mapping profile_mapping].
  rewrite erase_disconnected_lookup, add_profile_info_mapping.
  rewrite (decide_False (P := user_id = steam_id e)) by exact Hne.
  split.
  - intros Hc. apply elem_of_get_connected_client_xuids in Hc.
    rewrite decide_True by exact Hc. apply lookup_insert_eq.
  - intros Hc. apply decide_False. intros Hin.
    apply elem_of_get_connected_client_xuids in Hin as (client & Hin & Hx).
    exact (Hc client Hin Hx).
Qed.

(** X12: with the server running and nobody connected the sweep empties the
    registry; when every registered identifier belongs to a connected client
    it leaves the registry as it is. *)
Theorem clean_cached_profile_infos_extremes (e : env) (s : state) :
  is_server_running e = true ->
  let swept := state_of (clean_cached_profile_infos e s) in
  (connected_clients e = [] -> profile_mapping swept = ∅) /\
  ((forall id info, profile_mapping s !! id = Some info ->
      exists client, client ∈ connected_clients e /\ xuid client = id) ->
   profile_mapping swept = profile_mapping s).
Proof.
  intros Hrun. cbv zeta. rewrite clean_cached_profile_infos_run, Hrun.
  cbn [state_of fst snd set_profile_mapping profile_mapping]. split.
  - intros Hnone. apply map_empty. intros k. rewrite erase_disconnected_lookup.
    apply decide_False. intros Hin.
    apply elem_of_get_connected_client_xuids in Hin as (client & Hin & _).
    rewrite Hnone in Hin. apply elem_of_nil in Hin. exact Hin.
  - intros Hall. apply map_eq. intros k. rewrite erase_disconnected_lookup.
    destruct (decide _) as [_|Hout]; [reflexivity|].
    destruct (profile_mapping s !! k) as [info|] eqn:Hk; [|reflexivity].
    exfalso. apply Hout, elem_of_get_connected_client_xuids, (Hall k info Hk).
Qed.

(** ** Further properties of the distribution protocol *)

(** X13: a full sync talks to its target only and changes nothing.  What
    [addr] receives from [distribute_profile_infos_to_user] is one message
    per registry entry (in the iteration order of the map) followed, outside
    the server role and when the stored profile loads, by exactly one message
    with the local participant's own info, and by nothing else; no other
    address receives anything, nothing but these messages is sent, and the
    state afterwards is the state before. *)
Theorem distribute_profile_infos_to_user_only_target
    (e : env) (addr : netadr_t) (s : state) :
  let r := distribute_profile_infos_to_user e addr s in
  let own :=
    if is_server e then []
    else match result_of (load_profile_info s) with
         | Some info => [encode_profile_info (steam_id e) info]
         | None => []
         end in
  state_of r = s /\
  (forall other, other <> addr -> received_by other (trace_of r) = []) /\
  (exists entries,
     entries ≡ₚ map_to_list (profile_mapping s) /\
     received_by addr (trace_of r) = map sync_message entries ++ own) /\
  send_count (trace_of r) = (size (profile_mapping s) + length own)%nat /\
  (send_count (trace_of r) <= size (profile_mapping s) + 1)%nat /\
  (is_server e = true -> send_count (trace_of r) = size (profile_mapping s)).
Proof.
  cbv zeta. rewrite distribute_profile_infos_to_user_run.
  cbn [state_of trace_of fst snd]. fold (own_info_messages e s).
  assert (Hcount : send_count
            (EvAcquire ::
               map (fun entry => EvSend addr "profileInfo" (sync_message entry))
                   (map_to_list (profile_mapping s))
               ++ EvRelease ::
               map (fun data => EvSend addr "profileInfo" data) (own_info_messages e s))
          = (size (profile_mapping s) + length (own_info_messages e s))%nat).
  { change (EvAcquire :: ?l) with ([EvAcquire] ++ l).
    rewrite send_count_app, send_count_app.
    change (EvRelease :: ?l) with ([EvRelease] ++ l).
    rewrite send_count_app, !send_count_sends by reflexivity.
    rewrite length_map_to_list. reflexivity. }
  rewrite Hcount.
  split; [reflexivity|]. split; [|split; [|split; [|split]]].
  - intros other Hne. cbn [received_by]. rewrite received_by_app. cbn [received_by].
    rewrite (received_by_other addr other sync_message) by exact Hne.
    rewrite (received_by_other addr other (fun data => data)) by exact Hne.
    reflexivity.
  - exists (map_to_list (profile_mapping s)). split; [reflexivity|].
    cbn [received_by]. rewrite received_by_app. cbn [received_by].
    rewrite (received_by_sends addr sync_message).
    rewrite (received_by_sends addr (fun data => data)), map_id. reflexivity.
  - reflexivity.
  - unfold own_info_messages. destruct (is_server e); [cbn; lia|].
    destruct (result_of _); cbn; lia.
  - intros Hs. unfold own_info_messages. rewrite Hs. cbn. lia.
Qed.



(** ** Further properties of all operations *)

Lemma send_count_sync (addr : netadr_t) (l : list (Z * profile_info))
    (own : list (list byte)) :
  send_count
    (EvAcquire ::
       map (fun entry => EvSend addr "profileInfo" (sync_message entry)) l
       ++ EvRelease :: map (fun data => EvSend addr "profileInfo" data) own)
  = (length l + length own)%nat.
Proof.
  change (EvAcquire :: ?t) with ([EvAcquire] ++ t).
  rewrite send_count_app, send_count_app.
  change (EvRelease :: ?t) with ([EvRelease] ++ t).
  rewrite send_count_app, !send_count_sends by reflexivity. reflexivity.
Qed.

Lemma send_count_add_profile_info (e : env) (user_id : Z) (info : profile_info)
    (s : state) :
  send_count (trace_of (add_profile_info e user_id info s)) = 0%nat.
Proof. rewrite add_profile_info_trace. destruct (decide _); reflexivity. Qed.

Lemma send_count_distribute_profile_info (e : env) (user_id : Z) (info : profile_info)
    (s : state) :
  send_count (trace_of (distribute_profile_info e user_id info s))
  = if decide (user_id = steam_id e) then 0%nat else length (connected_clients e).
Proof.
  rewrite distribute_profile_info_run. cbn [trace_of snd].
  destruct (decide _); [reflexivity|]. apply send_count_sends. reflexivity.
Qed.

(** X15: how many messages each operation sends.  Only the three
    distributing entry points send at all: one message for
    [distribute_profile_info_to_user], one per registry entry plus the own
    info for the full sync, and for the join composite in addition one per
    connected client unless the identifier is the local one.  Ingests,
    lookups, resets, saves, received messages and scheduler passes send
    nothing; a client in particular never relays what it receives. *)
Theorem send_count_of_operation (e : env) (o : operation) (s : state) :
  send_count (trace_of (run_operation e o s)) =
  match o with
  | OpDistributeProfileInfoToUser _ _ _ => 1%nat
  | OpDistributeProfileInfosToUser _ =>
      (size (profile_mapping s) + length (own_info_messages e s))%nat
  | OpAddAndDistributeProfileInfo _ user_id _ =>
      (size (profile_mapping s) + length (own_info_messages e s)
       + if decide (user_id = steam_id e) then 0 else length (connected_clients e))%nat
  | _ => 0%nat
  end.
Proof.
  destruct o as [user_id info|addr user_id info|addr|addr user_id info| | |user_id|info|
                 |server data|d]; cbn [run_operation].
  - apply send_count_add_profile_info.
  - reflexivity.
  - rewrite distribute_profile_infos_to_user_run. cbn [trace_of snd].
    rewrite send_count_sync, length_map_to_list. reflexivity.
  - unfold add_and_distribute_profile_info.
    rewrite !trace_of_bind, distribute_profile_infos_to_user_run.
    cbn [result_of state_of trace_of fst snd].
    rewrite !send_count_app, send_count_sync, length_map_to_list.
    rewrite send_count_add_profile_info, send_count_distribute_profile_info. lia.
  - reflexivity.
  - rewrite trace_of_bind. unfold get_local_profile_info.
    destruct (load_profile_info_pure s) as [_ ->]. reflexivity.
  - rewrite trace_of_bind.
    destruct (get_profile_info_run e user_id s) as [_ ->].
    destruct (decide _); reflexivity.
  - reflexivity.
  - rewrite trace_of_bind. unfold post_unpack. rewrite trace_of_bind, state_of_bind.
    cbn [scheduler_loop modify result_of state_of trace_of fst snd].
    destruct (is_client e); reflexivity.
  - rewrite trace_of_bind. cbn [mret M_ret trace_of snd]. rewrite app_nil_r.
    destruct (profile_info_handler_cases e server data s)
      as [->|[->|(user_id & info & _ & ->)]]; [reflexivity|reflexivity|].
    apply send_count_add_profile_info.
  - apply send_count_no_send. apply (scheduler_frame_spec e d s).
Qed.

Lemma lock_discipline_app (held : bool) (t1 t2 : list event) :
  lock_discipline held (t1 ++ t2)
  = lock_discipline held t1 && lock_discipline (held_after held t1) t2.
Proof.
  revert held. induction t1 as [|ev t1 IH]; intros held; [reflexivity|].
  destruct ev; cbn [app lock_discipline held_after]; rewrite ?IH, ?andb_assoc;
    reflexivity.
Qed.

Lemma lock_discipline_sends {A} (held : bool) (f : A -> event) (l : list A) :
  (forall x, is_send (f x) = true) ->
  lock_discipline held (map f l) = true /\ held_after held (map f l) = held.
Proof.
  intros Hf. induction l as [|x l IH]; [split; reflexivity|].
  cbn [map]. specialize (Hf x). destruct (f x); try discriminate. exact IH.
Qed.

Lemma lock_discipline_sync (addr : netadr_t) (l : list (Z * profile_info))
    (own : list (list byte)) :
  let tr := EvAcquire ::
              map (fun entry => EvSend addr "profileInfo" (sync_message entry)) l
              ++ EvRelease :: map (fun data => EvSend addr "profileInfo" data) own in
  lock_discipline false tr = true /\ held_after false tr = false.
Proof.
  cbv zeta. cbn [lock_discipline held_after negb andb].
  rewrite lock_discipline_app, held_after_app.
  destruct (lock_discipline_sends true
              (fun entry => EvSend addr "profileInfo" (sync_message entry)) l)
    as [-> ->]; [reflexivity|].
  cbn [lock_discipline held_after andb].
  apply lock_discipline_sends. reflexivity.
Qed.

Lemma lock_discipline_add_profile_info (e : env) (user_id : Z) (info : profile_info)
    (s : state) :
  lock_discipline false (trace_of (add_profile_info e user_id info s)) = true /\
  held_after false (trace_of (add_profile_info e user_id info s)) = false.
Proof. rewrite add_profile_info_trace. destruct (decide _); split; reflexivity. Qed.

Lemma lock_discipline_run_due (e : env) (l : list scheduled) (s : state) :
  let tr := trace_of (for_each l (fun x => run_task e (body x)) s) in
  lock_discipline false tr = true /\ held_after false tr = false.
Proof.
  revert s. induction l as [|x l IH]; intros s; [split; reflexivity|].
  cbv zeta. cbn [for_each]. rewrite trace_of_bind, lock_discipline_app, held_after_app.
  rewrite run_task_run. destruct (body x).
  - cbn [state_of trace_of fst snd lock_discipline held_after andb]. apply IH.
  - rewrite clean_cached_profile_infos_run. destruct (is_server_running e);
      cbn [state_of trace_of fst snd lock_discipline held_after andb negb]; apply IH.
Qed.

(** X16: every operation uses the registry mutex properly: it never enters
    the guarded access while already inside it, never leaves it without
    having entered, and has left it when the operation returns. *)
Theorem lock_discipline_of_operation (e : env) (o : operation) (s : state) :
  lock_discipline false (trace_of (run_operation e o s)) = true /\
  held_after false (trace_of (run_operation e o s)) = false.
Proof.
  destruct o as [user_id info|addr user_id info|addr|addr user_id info| | |user_id|info|
                 |server data|d]; cbn [run_operation].
  - apply lock_discipline_add_profile_info.
  - split; reflexivity.
  - rewrite distribute_profile_infos_to_user_run. cbn [trace_of snd].
    apply lock_discipline_sync.
  - unfold add_and_distribute_profile_info.
    rewrite !trace_of_bind, distribute_profile_infos_to_user_run.
    cbn [result_of state_of trace_of fst snd].
    rewrite !lock_discipline_app, !held_after_app.
    destruct (lock_discipline_sync addr (map_to_list (profile_mapping s))
                (own_info_messages e s)) as [-> ->].
    destruct (lock_discipline_add_profile_info e user_id info s) as [-> ->].
    rewrite distribute_profile_info_run. cbn [trace_of snd andb].
    destruct (decide _); [split; reflexivity|].
    apply lock_discipline_sends. reflexivity.
  - split; reflexivity.
  - rewrite trace_of_bind. unfold get_local_profile_info.
    destruct (load_profile_info_pure s) as [_ ->]. split; reflexivity.
  - rewrite trace_of_bind.
    destruct (get_profile_info_run e user_id s) as [_ ->].
    destruct (decide _); split; reflexivity.
  - split; reflexivity.
  - rewrite trace_of_bind. unfold post_unpack. rewrite trace_of_bind, state_of_bind.
    cbn [scheduler_loop modify result_of state_of trace_of fst snd].
    destruct (is_client e); split; reflexivity.
  - rewrite trace_of_bind. cbn [mret M_ret trace_of snd]. rewrite app_nil_r.
    destruct (profile_info_handler_cases e server data s)
      as [->|[->|(user_id & info & _ & ->)]]; [split; reflexivity|split; reflexivity|].
    apply lock_discipline_add_profile_info.
  - rewrite scheduler_frame_run. cbv zeta. cbn [trace_of snd].
    apply lock_discipline_run_due.
Qed.

Lemma add_profile_info_file (e : env) (user_id : Z) (info : profile_info) (s : state) :
  profile_file (state_of (add_profile_info e user_id info s)) = profile_file s.
Proof.
  rewrite add_profile_info_state. destruct (decide _); [reflexivity|].
  rewrite schedule_pcache_update_run. cbn.
  destruct (is_server e); [reflexivity|]. destruct (update_triggered s); reflexivity.
Qed.

(** X17: what each operation may change.  Sending one profile, the full
    sync and both lookups leave the whole state as it is; a reset changes the
    registry only, a save the stored profile only, the start-up the scheduler
    entries only; and no other operation (ingest, join composite, received
    message, scheduler pass) ever writes the stored profile. *)
Theorem footprint_of_operation (e : env) (o : operation) (s : state) :
  let s' := state_of (run_operation e o s) in
  match o with
  | OpDistributeProfileInfoToUser _ _ _
  | OpDistributeProfileInfosToUser _
  | OpGetLocalProfileInfo
  | OpGetProfileInfo _ => s' = s
  | OpClearProfileInfos => s' = set_profile_mapping ∅ s
  | OpUpdateProfileInfo info =>
      s' = set_profile_file (Some (le_bytes 4 (version info) ++ ddl info)) s
  | OpPostUnpack =>
      s' = set_tasks (tasks s ++ [{| body := clean_task;
                                     due := (now s + clean_interval)%N;
                                     repeat_every := Some clean_interval |}]) s
  | _ => profile_file s' = profile_file s
  end.
Proof.
  cbv zeta.
  destruct o as [user_id info|addr user_id info|addr|addr user_id info| | |user_id|info|
                 |server data|d]; cbn [run_operation].
  - apply add_profile_info_file.
  - reflexivity.
  - rewrite distribute_profile_infos_to_user_run. reflexivity.
  - unfold add_and_distribute_profile_info.
    rewrite !state_of_bind, distribute_profile_infos_to_user_run.
    cbn [result_of state_of trace_of fst snd].
    rewrite distribute_profile_info_run. cbn [state_of fst snd].
    apply add_profile_info_file.
  - reflexivity.
  - rewrite state_of_bind. unfold get_local_profile_info.
    destruct (load_profile_info_pure s) as [-> _]. reflexivity.
  - rewrite state_of_bind.
    destruct (get_profile_info_run e user_id s) as [-> _]. reflexivity.
  - reflexivity.
  - rewrite state_of_bind. unfold post_unpack. rewrite state_of_bind.
    cbn [scheduler_loop modify result_of state_of trace_of fst snd].
    destruct (is_client e); reflexivity.
  - rewrite state_of_bind. cbn [mret M_ret state_of fst snd].
    destruct (profile_info_handler_cases e server data s)
      as [->|[->|(user_id & info & -> & _)]]; [reflexivity|reflexivity|].
    apply add_profile_info_file.
  - apply (scheduler_frame_spec e d s).
Qed.

(** X18: the sweep registered at start-up is periodic.  After [post_unpack]
    on a scheduler without entries, a pass less than the interval later does
    nothing; a pass at or after the interval performs
    [clean_cached_profile_infos] once and keeps the entry registered, due one
    interval after that pass. *)
Theorem post_unpack_sweeps_periodically (e0 e : env) (d : N) (s : state) :
  tasks s = [] ->
  let started := state_of (post_unpack e0 s) in
  let r := scheduler_frame e d started in
  ((d < clean_interval)%N ->
   trace_of r = [] /\
   profile_mapping (state_of r) = profile_mapping s /\
   tasks (state_of r) = tasks started) /\
  ((clean_interval <= d)%N ->
   trace_of r = trace_of (clean_cached_profile_infos e s) /\
   profile_mapping (state_of r)
     = profile_mapping (state_of (clean_cached_profile_infos e s)) /\
   tasks (state_of r) = [{| body := clean_task;
                            due := (now s + d + clean_interval)%N;
                            repeat_every := Some clean_interval |}]).
Proof.
  intros Ht. cbv zeta.
  assert (Hstart : state_of (post_unpack e0 s)
            = set_tasks [{| body := clean_task; due := (now s + clean_interval)%N;
                            repeat_every := Some clean_interval |}] s).
  { unfold post_unpack. rewrite state_of_bind.
    cbn [scheduler_loop modify result_of state_of trace_of fst snd]. rewrite Ht.
    destruct (is_client e0); reflexivity. }
  rewrite Hstart, scheduler_frame_run. cbv zeta.
  cbn [tasks set_tasks set_now now omap list_omap]. unfold reschedule.
  split.
  - intros Hd.
    assert (Hdue : is_due (now s + d)
                     {| body := clean_task; due := (now s + clean_interval)%N;
                        repeat_every := Some clean_interval |} = false).
    { unfold is_due. apply bool_decide_eq_false_2. cbn [due]. lia. }
    rewrite filter_cons_False by (rewrite Hdue; discriminate).
    rewrite Hdue. cbn. auto.
  - intros Hd.
    assert (Hdue : is_due (now s + d)
                     {| body := clean_task; due := (now s + clean_interval)%N;
                        repeat_every := Some clean_interval |} = true).
    { unfold is_due. apply bool_decide_eq_true_2. cbn [due]. lia. }
    rewrite filter_cons_True by exact Hdue. rewrite Hdue.
    cbn [filter list_filter for_each body repeat_every mbind option_bind].
    rewrite bind_run. cbn [run_task mret M_ret result_of state_of trace_of fst snd].
    rewrite !clean_cached_profile_infos_run.
    destruct (is_server_running e); cbn [state_of trace_of fst snd]; auto.
Qed.

End ProfileInfos.

(** ** Concrete runs *)

(** A client process with Steam identity 1 and two connected peers; the party
    host is at address 10. *)
Abbreviation example_client :=
  ({| steam_id := 1; is_server := false; is_server_running := false;
      is_client := true;
      connected_clients := [ {| address := 10%N; xuid := 100 |};
                             {| address := 11%N; xuid := 101 |} ];
      party_is_host := fun a => bool_decide (a = 10%N) |} : @env N).

(** A hosting process with Steam identity 1 and the same two peers. *)
Abbreviation example_host :=
  ({| steam_id := 1; is_server := true; is_server_running := true;
      is_client := false;
      connected_clients := [ {| address := 10%N; xuid := 100 |};
                             {| address := 11%N; xuid := 101 |} ];
      party_is_host := fun _ => false |} : @env N).

Abbreviation example_info := {| version := 7; ddl := [x01; x02; x03] |}.

(** The state after start-up: empty registry, the sweep registered. *)
Abbreviation example_start :=
  {| profile_mapping := ∅; update_triggered := false; profile_file := None;
     now := 0%N;
     tasks := [ {| body := clean_task; due := 5000%N; repeat_every := Some 5000%N |} ] |}.

(** A registry knowing the peers 100 and 200. *)
Abbreviation example_known :=
  {| profile_mapping :=
       <[ 100 := example_info ]> (<[ 200 := {| version := 1; ddl := [x78] |} ]> ∅);
     update_triggered := false; profile_file := None; now := 0%N; tasks := [] |}.

Lemma distribute_profile_info_echo_counterexample :
  let peer := {| address := 10%N; xuid := 100 |} in
  peer ∈ connected_clients example_client /\
  xuid peer = 100 /\
  received_by (address peer)
    (trace_of (distribute_profile_info 4 example_client 100 example_info example_start))
  <> [].
Proof.
  cbv zeta. split; [apply list_elem_of_here|]. split; [reflexivity|].
  vm_compute. discriminate.
Qed.

Lemma full_sync_sends_in_access_counterexample :
  sends_in_access false
    (trace_of (distribute_profile_infos_to_user 4 example_host 10%N example_known))
  <> [].
Proof. vm_compute. discriminate. Qed.

Lemma schedule_pcache_update_debounce_witness :
  idle example_start /\
  let acts := [Frame 1000; Arm; Frame 3000; Arm] in
  let burst := run_actions example_client (Arm :: acts) example_start in
  let late := scheduler_frame example_client 1000 (state_of burst) in
  firings (trace_of burst) = 0%nat /\
  firings (trace_of late) = 1%nat /\
  idle (state_of late).
Proof.
  assert (Hidle : idle example_start) by (split; reflexivity).
  split; [exact Hidle|]. cbv zeta.
  destruct (proj1 (schedule_pcache_update_debounce example_client
                     [Frame 1000; Arm; Frame 3000; Arm] 1000 example_start Hidle))
    as (H1 & H2 & H3 & _).
  - reflexivity.
  - reflexivity.
  - vm_compute. discriminate.
  - auto.
Defined.

Lemma clean_cached_profile_infos_retains_witness :
  is_server_running example_host = true /\
  let r := clean_cached_profile_infos example_host example_known in
  profile_mapping (state_of r) !! 200 = None /\
  profile_mapping (state_of r) !! 100 = Some example_info.
Proof.
  split; [reflexivity|]. cbv zeta.
  destruct (clean_cached_profile_infos_retains example_host example_known eq_refl)
    as (_ & Hout & Hin & _).
  split.
  - apply Hout. apply (bool_decide_unpack _). vm_compute. exact I.
  - rewrite Hin; [reflexivity|]. apply (bool_decide_unpack _). vm_compute. exact I.
Defined.

Lemma add_then_get_profile_info_witness :
  100 <> steam_id example_client /\
  result_of (get_profile_info example_client 100
               (state_of (add_profile_info example_client 100 example_info example_start)))
  = Some example_info.
Proof.
  assert (Hne : 100 <> steam_id example_client) by discriminate.
  split; [exact Hne|]. apply add_then_get_profile_info. exact Hne.
Defined.

Lemma profile_info_serialize_roundtrip_witness :
  ProfileInfo.representable 4 example_info /\
  ProfileInfo.read 4 (ProfileInfo.serialize 4 example_info []) = Some (example_info, []).
Proof.
  assert (Hrep : ProfileInfo.representable 4 example_info).
  { unfold ProfileInfo.representable, Bytes.int32_range. cbn. lia. }
  split; [exact Hrep|]. apply profile_info_serialize_roundtrip. exact Hrep.
Defined.

Lemma registry_never_holds_local_identity_witness :
  let s1 := state_of (run_operation 4 example_client
                        (OpAddAndDistributeProfileInfo 10%N 100 example_info)
                        example_start) in
  let s2 := state_of (run_operation 4 example_client (OpAddProfileInfo 1 example_info) s1) in
  profile_mapping example_start = ∅ /\
  rtc (@step N 4 1) example_start s2 /\
  profile_mapping s2 !! 1 = None.
Proof.
  cbv zeta.
  assert (Hreach : rtc (@step N 4 1) example_start
            (state_of (run_operation 4 example_client (OpAddProfileInfo 1 example_info)
               (state_of (run_operation 4 example_client
                            (OpAddAndDistributeProfileInfo 10%N 100 example_info)
                            example_start))))).
  { eapply rtc_l.
    { exact (step_operation 4 1 example_client
               (OpAddAndDistributeProfileInfo 10%N 100 example_info) example_start eq_refl). }
    eapply rtc_l.
    { exact (step_operation 4 1 example_client (OpAddProfileInfo 1 example_info) _ eq_refl). }
    apply rtc_refl. }
  split; [reflexivity|]. split; [exact Hreach|].
  apply (registry_never_holds_local_identity (netadr_t := N) 4 1 example_start);
    [reflexivity|exact Hreach].
Defined.

Lemma profile_info_handler_ignores_non_host_witness :
  ("profileInfo"%string, profile_info_handler 4)
    ∈ result_of (post_unpack 4 example_client example_start) /\
  party_is_host example_client 11%N = false /\
  profile_info_handler 4 example_client 11%N [x01; x02] example_known
  = (Some tt, example_known, []).
Proof.
  assert (Hin : ("profileInfo"%string, profile_info_handler 4)
                  ∈ result_of (post_unpack 4 example_client example_start))
    by apply list_elem_of_here.
  assert (Hhost : party_is_host example_client 11%N = false) by reflexivity.
  split; [exact Hin|]. split; [exact Hhost|].
  exact (proj1 (proj2 (profile_info_handler_ignores_non_host 4 example_client
           example_client example_start example_known "profileInfo"
           (profile_info_handler 4) 11%N [x01; x02] Hin Hhost))).
Defined.

(** ** Concrete runs of the further properties *)

Abbreviation example_stored :=
  {| profile_mapping := ∅; update_triggered := false;
     profile_file := Some [x07; x00; x00; x00; x01; x02; x03; x04; x05];
     now := 0%N; tasks := [] |}.

Abbreviation example_long_info := {| version := -2; ddl := [x01; x02; x03; x04] |}.

Lemma load_profile_info_long_blob_witness :
  exists info,
    load_profile_info (netadr_t := N) example_stored = (Some info, example_stored, []) /\
    version info = 7 /\ ddl info = [x01; x02; x03; x04; x05].
Proof.
  destruct (load_profile_info_long_blob (netadr_t := N) example_stored
              [x07; x00; x00; x00; x01; x02; x03; x04; x05] eq_refl)
    as (info & Hload & Hv & _ & Hd & _).
  - cbn. lia.
  - exists info. split; [exact Hload|]. split; [rewrite Hv|rewrite Hd]; reflexivity.
Defined.

Lemma update_then_load_profile_info_witness :
  Bytes.int32_range (version example_long_info) /\
  (4 <= length (ddl example_long_info))%nat /\
  result_of (load_profile_info (netadr_t := N)
               (state_of (update_profile_info (netadr_t := N) example_long_info
                            example_start)))
  = Some example_long_info.
Proof.
  assert (Hv : Bytes.int32_range (version example_long_info))
    by (unfold Bytes.int32_range; cbn; lia).
  assert (Hl : (4 <= length (ddl example_long_info))%nat) by (cbn; lia).
  split; [exact Hv|]. split; [exact Hl|].
  exact (proj1 (update_then_load_profile_info example_client example_long_info
                  example_start Hv Hl)).
Defined.

Lemma profile_info_read_canonical_witness :
  ProfileInfo.read 4 (ProfileInfo.serialize 4 example_info [] ++ [xff])
  = Some (example_info, [xff]) /\
  ProfileInfo.representable 4 example_info.
Proof.
  assert (Hread : ProfileInfo.read 4 (ProfileInfo.serialize 4 example_info [] ++ [xff])
                  = Some (example_info, [xff])) by reflexivity.
  split; [exact Hread|].
  exact (proj1 (proj2 (profile_info_read_canonical 4 _ _ _ Hread))).
Defined.

Lemma profile_info_read_truncated_witness :
  ProfileInfo.representable 4 example_info /\
  (10 < length (ProfileInfo.serialize 4 example_info []))%nat /\
  ProfileInfo.read 4 (take 10 (ProfileInfo.serialize 4 example_info [])) = None.
Proof.
  assert (Hrep : ProfileInfo.representable 4 example_info).
  { unfold ProfileInfo.representable, Bytes.int32_range. cbn. lia. }
  assert (Hk : (10 < length (ProfileInfo.serialize 4 example_info []))%nat)
    by (cbn; lia).
  split; [exact Hrep|]. split; [exact Hk|].
  exact (profile_info_read_truncated 4 example_info 10 Hrep Hk).
Defined.

Lemma profile_info_handler_ingests_encoded_witness :
  party_is_host example_client 10%N = true /\
  Bytes.uint64_range 100 /\
  ProfileInfo.representable 4 example_info /\
  result_of (get_profile_info example_client 100
               (state_of (profile_info_handler 4 example_client 10%N
                            (encode_profile_info 4 100 example_info) example_start)))
  = Some example_info.
Proof.
  assert (Hhost : party_is_host example_client 10%N = true) by reflexivity.
  assert (Hid : Bytes.uint64_range 100) by (unfold Bytes.uint64_range; lia).
  assert (Hrep : ProfileInfo.representable 4 example_info).
  { unfold ProfileInfo.representable, Bytes.int32_range. cbn. lia. }
  split; [exact Hhost|]. split; [exact Hid|]. split; [exact Hrep|].
  apply (proj2 (profile_info_handler_ingests_encoded 4 example_client 10%N 100
                  example_info example_start Hhost Hid Hrep)).
  discriminate.
Defined.

Lemma profile_info_handler_short_message_witness :
  party_is_host example_client 10%N = true /\
  (length [x01; x02; x03] < 8 + 4 + 4)%nat /\
  profile_info_handler 4 example_client 10%N [x01; x02; x03] example_known
  = (None, example_known, []).
Proof.
  assert (Hhost : party_is_host example_client 10%N = true) by reflexivity.
  assert (Hl : (length [x01; x02; x03] < 8 + 4 + 4)%nat) by (cbn; lia).
  split; [exact Hhost|]. split; [exact Hl|].
  exact (profile_info_handler_short_message 4 example_client 10%N [x01; x02; x03]
           example_known Hhost Hl).
Defined.

Lemma add_profile_info_overwrites_one_key_witness :
  200 <> 100 /\
  profile_mapping
    (state_of (add_profile_info example_client 100 example_long_info example_known))
    !! 200
  = profile_mapping example_known !! 200.
Proof.
  assert (Hne : 200 <> 100) by discriminate.
  split; [exact Hne|].
  exact (proj1 (add_profile_info_overwrites_one_key example_client 100
                  example_long_info example_info example_known) 200 Hne).
Defined.

Lemma add_profile_infos_schedule_once_witness :
  let entries := [(1, example_info); (100, example_info); (101, example_long_info)] in
  is_server example_client = false /\
  idle example_start /\
  Exists (fun entry : Z * profile_info => entry.1 <> steam_id example_client) entries /\
  length (tasks (state_of (add_profile_infos example_client entries example_start)))
  = 2%nat.
Proof.
  cbv zeta.
  assert (Hs : is_server example_client = false) by reflexivity.
  assert (Hi : idle example_start) by (split; reflexivity).
  assert (Hex : Exists (fun entry : Z * profile_info => entry.1 <> steam_id example_client)
                  [(1, example_info); (100, example_info); (101, example_long_info)]).
  { apply Exists_cons_tl, Exists_cons_hd. discriminate. }
  split; [exact Hs|]. split; [exact Hi|]. split; [exact Hex|].
  destruct (proj1 (add_profile_infos_schedule_once example_client _ example_start)
              Hs Hi Hex) as [_ Ht].
  rewrite Ht. reflexivity.
Defined.

Lemma clear_profile_infos_forgets_witness :
  100 <> steam_id example_client /\
  result_of (get_profile_info example_client 100
               (state_of (clear_profile_infos (netadr_t := N) example_known)))
  = None.
Proof.
  assert (Hne : 100 <> steam_id example_client) by discriminate.
  split; [exact Hne|].
  exact (proj1 (proj2 (clear_profile_infos_forgets 4 example_client 10%N example_known))
           100 Hne).
Defined.

Lemma add_then_clean_cached_profile_infos_witness :
  300 <> steam_id example_host /\
  is_server_running example_host = true /\
  (forall client, client ∈ connected_clients example_host -> xuid client <> 300) /\
  profile_mapping
    (state_of (clean_cached_profile_infos example_host
                 (state_of (add_profile_info example_host 300 example_info
                              example_known))))
    !! 300 = None.
Proof.
  assert (Hne : 300 <> steam_id example_host) by discriminate.
  assert (Hrun : is_server_running example_host = true) by reflexivity.
  assert (Hout : forall client,
            client ∈ connected_clients example_host -> xuid client <> 300).
  { intros client Hin. cbn in Hin.
    apply elem_of_cons in Hin as [->|Hin]; [discriminate|].
    apply elem_of_cons in Hin as [->|Hin]; [discriminate|].
    apply elem_of_nil in Hin. contradiction. }
  split; [exact Hne|]. split; [exact Hrun|]. split; [exact Hout|].
  exact (proj2 (add_then_clean_cached_profile_infos example_host 300 example_info
                  example_known Hne Hrun) Hout).
Defined.

Lemma clean_cached_profile_infos_extremes_witness :
  let nobody := ({| steam_id := 1; is_server := true; is_server_running := true;
                    is_client := false; connected_clients := [];
                    party_is_host := fun _ => false |} : @env N) in
  is_server_running nobody = true /\
  connected_clients nobody = [] /\
  profile_mapping (state_of (clean_cached_profile_infos nobody example_known)) = ∅.
Proof.
  cbv zeta. split; [reflexivity|]. split; [reflexivity|].
  apply (clean_cached_profile_infos_extremes
           ({| steam_id := 1; is_server := true; is_server_running := true;
               is_client := false; connected_clients := [];
               party_is_host := fun _ => false |} : @env N) example_known eq_refl).
  reflexivity.
Defined.

Lemma distribute_profile_infos_to_user_only_target_witness :
  11%N <> 10%N /\
  received_by 11%N
    (trace_of (distribute_profile_infos_to_user 4 example_client 10%N example_known))
  = [].
Proof.
  assert (Hne : 11%N <> 10%N) by discriminate.
  split; [exact Hne|].
  exact (proj1 (proj2 (distribute_profile_infos_to_user_only_target 4 example_client
                         10%N example_known)) 11%N Hne).
Defined.


Lemma post_unpack_sweeps_periodically_witness :
  tasks example_known = [] /\
  (5000 <= 6000)%N /\
  tasks (state_of (scheduler_frame example_host 6000
                     (state_of (post_unpack 4 example_host example_known))))
  = [{| body := clean_task; due := 11000%N; repeat_every := Some 5000%N |}].
Proof.
  assert (Ht : tasks example_known = []) by reflexivity.
  assert (Hd : (clean_interval <= 6000)%N) by (vm_compute; discriminate).
  split; [exact Ht|]. split; [exact Hd|].
  exact (proj2 (proj2 (proj2 (post_unpack_sweeps_periodically 4 example_host
                  example_host 6000 example_known Ht) Hd))).
Defined.
